(** * insider-detect: the web dashboard client, the start script and the
    scoring core

    A shallow embedding of [web-dashboard/src/api.ts], of the dashboard's
    [App] component (its [load] routine, its state and what it renders of
    it), of the start script [scripts/run_everything.ps1], and of the
    scoring-core components the specification describes (ensemble fuser,
    post-filter, rate limiter, statistics aggregator).

    JavaScript numbers are IEEE 754 binary64 values; they are modelled by
    [spec_float], the specification of floating-point numbers of the
    standard library, at precision 53 and maximal exponent 1024.  The
    built-in conversions the dashboard relies on ([toFixed], [String],
    truthiness, optional chaining) follow ECMAScript. *)

From Stdlib Require Import ZArith Bool Ascii.
From Stdlib Require Import SpecFloat.
From Stdlib Require Import QArith Lqa.
From stdpp Require Import gmap strings list.

Local Open Scope Z_scope.

(** ** Binary64 numbers *)

Module Binary64.

Definition prec : Z := 53.
Definition emax : Z := 1024.

Definition number : Type := spec_float.

Definition add : number -> number -> number := SFadd prec emax.
Definition mul : number -> number -> number := SFmul prec emax.
Definition div : number -> number -> number := SFdiv prec emax.

(** The number nearest to an integer (ties to even). *)
Definition of_Z (z : Z) : number := binary_normalize prec emax z 0 false.

(** The number nearest to [m * 10^e] (ties to even): the value of a decimal
    literal, and the ECMAScript conversion from a mathematical value. *)
Definition of_decimal (m e : Z) : number :=
  if 0 <=? e then of_Z (m * 10 ^ e)
  else
    match m with
    | Z0 => S754_zero false
    | Zpos p =>
        div (S754_finite false p 0) (S754_finite false (Z.to_pos (10 ^ (- e))) 0)
    | Zneg p =>
        div (S754_finite true p 0) (S754_finite false (Z.to_pos (10 ^ (- e))) 0)
    end.

(** Structural equality; on canonical representations it is equality of
    values, except that it tells [+0] from [-0]. *)
Definition same (x y : number) : bool :=
  match x, y with
  | S754_zero a, S754_zero b => Bool.eqb a b
  | S754_infinity a, S754_infinity b => Bool.eqb a b
  | S754_nan, S754_nan => true
  | S754_finite a m e, S754_finite b m' e' =>
      Bool.eqb a b && Pos.eqb m m' && Z.eqb e e'
  | _, _ => false
  end.

Definition is_nan (x : number) : bool :=
  match x with S754_nan => true | _ => false end.

(** IEEE comparisons: every comparison with NaN is false. *)
Definition leb : number -> number -> bool := SFleb.
Definition ltb : number -> number -> bool := SFltb.

(** [|x - num/den| < 2^(-k)] for a finite [x], in exact arithmetic. *)
Definition nearer_than (x : number) (num den k : Z) : bool :=
  match x with
  | S754_zero _ => Z.abs num * 2 ^ k <? den
  | S754_finite sign m e =>
      let v := if sign then Zneg m else Zpos m in
      if 0 <=? e then Z.abs (v * 2 ^ e * den - num) * 2 ^ k <? den
      else Z.abs (v * den - num * 2 ^ (- e)) * 2 ^ k <? den * 2 ^ (- e)
  | _ => false
  end.

End Binary64.

Abbreviation number := Binary64.number.

(** ** Number to string conversions of ECMAScript *)

Module JSNumber.

Definition digit_char (d : Z) : ascii :=
  match d with
  | 0 => "0" | 1 => "1" | 2 => "2" | 3 => "3" | 4 => "4"
  | 5 => "5" | 6 => "6" | 7 => "7" | 8 => "8" | _ => "9"
  end%char.

Fixpoint digits_aux (fuel : nat) (n : Z) (acc : string) : string :=
  match fuel with
  | O => acc
  | S fuel' =>
      let acc' := String (digit_char (n mod 10)) acc in
      if n <? 10 then acc' else digits_aux fuel' (n / 10) acc'
  end.

(** The decimal representation of a natural number, without leading
    zeros ("0" for zero). *)
Definition digits (n : Z) : string :=
  digits_aux (S (Z.to_nat (Z.log2 n))) n "".

Fixpoint zeros (n : nat) : string :=
  match n with O => "" | S n' => String "0"%char (zeros n') end.

Definition str_take (n : nat) (s : string) : string := String.substring 0 n s.
Definition str_drop (n : nat) (s : string) : string :=
  String.substring n (String.length s - n) s.

(** A text that does not start with a minus sign. *)
Definition starts_plain (s : string) : Prop :=
  exists c r, s = String c r /\ c <> "-"%char.

(** A text of decimal digits. *)
Fixpoint all_digits (s : string) : Prop :=
  match s with
  | EmptyString => True
  | String c r => In c ["0"; "1"; "2"; "3"; "4"; "5"; "6"; "7"; "8"; "9"]%char /\ all_digits r
  end.

(** [v < 10^n] for the rational [v = num / den]. *)
Definition below_pow10 (num den n : Z) : bool :=
  if 0 <=? n then num <? den * 10 ^ n else num * 10 ^ (- n) <? den.

Fixpoint first_below (fuel : nat) (num den n : Z) : Z :=
  match fuel with
  | O => n
  | S fuel' =>
      if below_pow10 num den n then n else first_below fuel' num den (n + 1)
  end.

(** The integer [n] with [10^(n-1) <= num/den < 10^n]. *)
Definition decimal_exponent (num den : Z) : Z :=
  let est := ((Z.log2 num - Z.log2 den) * 30103) / 100000 in
  first_below 6 num den (est - 2).

(** The value of a finite number as a fraction. *)
Definition fraction (m : positive) (e : Z) : Z * Z :=
  if 0 <=? e then (Zpos m * 2 ^ e, 1) else (Zpos m, 2 ^ (- e)).

(** For [k] digits: the candidates [(s, n)] with [s * 10^(n-k)] next to
    [num/den] below and above, the nearer one first (the even one on a
    tie). *)
Definition candidates (num den n k : Z) : list (Z * Z) :=
  let '(tnum, tden) :=
    if 0 <=? k - n then (num * 10 ^ (k - n), den)
    else (num, den * 10 ^ (n - k)) in
  let lo := tnum / tden in
  let r := tnum mod tden in
  let up := if lo + 1 =? 10 ^ k then (10 ^ (k - 1), n + 1) else (lo + 1, n) in
  let down := (lo, n) in
  match 2 * r ?= tden with
  | Lt => [down; up]
  | Gt => [up; down]
  | Eq => if Z.even lo then [down; up] else [up; down]
  end.

Definition round_trips (x : number) (k : Z) (c : Z * Z) : bool :=
  let '(s, n) := c in
  (10 ^ (k - 1) <=? s) && Binary64.same (Binary64.of_decimal s (n - k)) x.

Fixpoint shortest_from (fuel : nat) (x : number) (num den n k : Z) : Z * Z * Z :=
  let cs := candidates num den n k in
  match List.find (round_trips x k) cs with
  | Some (s, n') => (s, n', k)
  | None =>
      match fuel with
      | O => match cs with c :: _ => (c.1, c.2, k) | [] => (0, n, k) end
      | S fuel' => shortest_from fuel' x num den n (k + 1)
      end
  end.

(** [(s, n, k)] with [k] as small as possible such that
    [10^(k-1) <= s < 10^k] and [s * 10^(n-k)] converts back to the
    positive finite number [m * 2^e]. *)
Definition shortest (m : positive) (e : Z) : Z * Z * Z :=
  let '(num, den) := fraction m e in
  shortest_from 16 (S754_finite false m e) num den (decimal_exponent num den) 1.

(** Number::toString(x, 10) for a positive finite [x = m * 2^e]. *)
Definition positive_to_string (m : positive) (e : Z) : string :=
  let '(s, n, k) := shortest m e in
  let ds := digits s in
  if (k <=? n) && (n <=? 21) then
    ds +:+ zeros (Z.to_nat (n - k))
  else if (0 <? n) && (n <=? 21) then
    str_take (Z.to_nat n) ds +:+ "." +:+ str_drop (Z.to_nat n) ds
  else if (-6 <? n) && (n <=? 0) then
    "0." +:+ zeros (Z.to_nat (- n)) +:+ ds
  else
    let exponent := (if 0 <=? n - 1 then "e+" else "e-") +:+ digits (Z.abs (n - 1)) in
    if k =? 1 then ds +:+ exponent
    else str_take 1 ds +:+ "." +:+ str_drop 1 ds +:+ exponent.

(** Number::toString(x, 10). *)
Definition to_string (x : number) : string :=
  match x with
  | S754_nan => "NaN"
  | S754_zero _ => "0"
  | S754_infinity false => "Infinity"
  | S754_infinity true => "-Infinity"
  | S754_finite false m e => positive_to_string m e
  | S754_finite true m e => "-" +:+ positive_to_string m e
  end.

(** The integer [n] for which [n / 10^f - num/den] is as close to zero as
    possible; the larger one when there are two. *)
Definition nearest_scaled (num den : Z) (f : Z) : Z :=
  (2 * num * 10 ^ f + den) / (2 * den).

(** Steps 9 to 11 of Number.prototype.toFixed: the digits of [n] with a
    decimal point before the last [f] of them. *)
Definition fixed_digits (n : Z) (f : nat) : string :=
  let m := digits n in
  match f with
  | O => m
  | _ =>
      let k := String.length m in
      let m' := if (k <=? f)%nat then zeros (f + 1 - k) +:+ m else m in
      let k' := String.length m' in
      str_take (k' - f) m' +:+ "." +:+ str_drop (k' - f) m'
  end.

(** Number.prototype.toFixed(fractionDigits) for [0 <= fractionDigits <=
    100] (outside this range the method throws a RangeError; the dashboard
    calls it with the literal 2). *)
Definition toFixed (x : number) (fractionDigits : nat) : string :=
  match x with
  | S754_nan => "NaN"
  | S754_infinity false => "Infinity"
  | S754_infinity true => "-Infinity"
  | S754_zero _ => fixed_digits 0 fractionDigits
  | S754_finite sign m e =>
      let '(num, den) := fraction m e in
      (if sign then "-" else "") +:+
      (if 10 ^ 21 * den <=? num then positive_to_string m e
       else fixed_digits (nearest_scaled num den (Z.of_nat fractionDigits)) fractionDigits)
  end.

End JSNumber.

(** ** Reading a text with two decimal places *)

Module Decimal.
Import JSNumber.

(** The value of a decimal digit: the characters "0" to "9" have the
    codes 48 to 57. *)
Definition digit_of (c : ascii) : option Z :=
  let code := Z.of_N (N_of_ascii c) in
  if (48 <=? code) && (code <=? 57) then Some (code - 48) else None.

(** The number that the leading digits of a text continue [acc] to, and
    the rest of the text. *)
Fixpoint read_digits (acc : Z) (s : string) : Z * string :=
  match s with
  | EmptyString => (acc, s)
  | String c r =>
      match digit_of c with
      | Some d => read_digits (10 * acc + d) r
      | None => (acc, s)
      end
  end.

(** A text of the form "d...d.dd" (at least one digit before the point,
    exactly two after it), read as a number of hundredths. *)
Definition read_unsigned (s : string) : option Z :=
  match s with
  | EmptyString => None
  | String c _ =>
      match digit_of c with
      | None => None
      | Some _ =>
          match read_digits 0 s with
          | (whole, String "." (String a (String b EmptyString))) =>
              match digit_of a, digit_of b with
              | Some da, Some db => Some (whole * 100 + da * 10 + db)
              | _, _ => None
              end
          | _ => None
          end
      end
  end.

(** A text with two decimal places, with or without a minus sign: whether
    it has the sign, and its number of hundredths. *)
Definition read (s : string) : option (bool * Z) :=
  match s with
  | String "-" r => option_map (pair true) (read_unsigned r)
  | _ => option_map (pair false) (read_unsigned s)
  end.

(** The numbers that [toFixed] writes in fixed notation: the zeros, and the
    finite numbers below [10^21] in magnitude. *)
Definition in_fixed_range (x : number) : bool :=
  match x with
  | S754_zero _ => true
  | S754_finite _ m e => let '(num, den) := fraction m e in num <? 10 ^ 21 * den
  | _ => false
  end.

Definition is_negative (x : number) : bool :=
  match x with S754_finite true _ _ => true | _ => false end.

(** [n] hundredths is the decimal with two places nearest to the magnitude
    of [x], the larger one when two are equally near. *)
Definition nearest_hundredths (x : number) (n : Z) : Prop :=
  match x with
  | S754_zero _ => n = 0
  | S754_finite _ m e =>
      let '(num, den) := fraction m e in
      2 * den * n <= 200 * num + den < 2 * den * (n + 1)
  | _ => False
  end.

End Decimal.

(** ** JavaScript values as [JSON.parse] produces them *)

Module JS.

#[warnings="-register-all"]
Inductive value : Type :=
| VUndefined
| VNull
| VBool (b : bool)
| VNumber (x : number)
| VString (s : string)
| VArray (elems : list value)
| VObject (fields : gmap string value).

(** What a [throw] carries.  [Error] is [new Error(message)]; [TypeError]
    and [SyntaxError] are the built-in subclasses of Error raised by
    property access on null/undefined, by conversions, by a failed [fetch]
    and by [res.json()] on a body that is not JSON. *)
Inductive exn : Type :=
| Error (message : string)
| TypeError
| SyntaxError.

Inductive completion (A : Type) : Type :=
| Normal (a : A)
| Throw (e : exn).
Arguments Normal {A} a.
Arguments Throw {A} e.

Definition is_nullish (v : value) : bool :=
  match v with VUndefined | VNull => true | _ => false end.

(** ToBoolean: the falsy values are undefined, null, false, +0, -0, NaN
    and the empty string. *)
Definition ToBoolean (v : value) : bool :=
  match v with
  | VUndefined | VNull => false
  | VBool b => b
  | VNumber (S754_zero _) | VNumber S754_nan => false
  | VNumber _ => true
  | VString s => negb (bool_decide (s = ""))
  | VArray _ | VObject _ => true
  end.

Definition typeof (v : value) : string :=
  match v with
  | VUndefined => "undefined"
  | VNull | VArray _ | VObject _ => "object"
  | VBool _ => "boolean"
  | VNumber _ => "number"
  | VString _ => "string"
  end.

(** [typeof v === 'number' ? v : undefined], at the type
    [number | undefined]. *)
Definition as_number (v : value) : option number :=
  match v with VNumber x => Some x | _ => None end.

(** [v === s] for a string [s]. *)
Definition strict_equals_string (v : value) (s : string) : bool :=
  match v with VString t => bool_decide (t = s) | _ => false end.

(** [v.key], for a [key] that no built-in prototype or exotic object
    provides (the dashboard reads [status], [model_name], [xgb_version] and
    [requests_per_min]): the own property of an object, undefined on
    every other value, a TypeError on null and undefined. *)
Definition get (v : value) (key : string) : completion value :=
  match v with
  | VUndefined | VNull => Throw TypeError
  | VObject fields => Normal (default VUndefined (fields !! key))
  | _ => Normal VUndefined
  end.

(** [v?.key] *)
Definition get_optional (v : value) (key : string) : value :=
  match v with
  | VUndefined | VNull => VUndefined
  | VObject fields => default VUndefined (fields !! key)
  | _ => VUndefined
  end.

(** [a || b] *)
Definition or_else (a b : value) : value := if ToBoolean a then a else b.

(** ToString, which [String(v)] applies.  An array joins the conversions
    of its elements with commas (nothing for null and undefined).  An
    object converts through [Object.prototype.toString], unless an own
    property named [toString] shadows it: a parsed JSON value is never
    callable, so the conversion then falls to [valueOf], which does not
    return a primitive, and a TypeError is thrown. *)
Fixpoint ToString (v : value) : completion string :=
  match v with
  | VUndefined => Normal "undefined"
  | VNull => Normal "null"
  | VBool true => Normal "true"
  | VBool false => Normal "false"
  | VNumber x => Normal (JSNumber.to_string x)
  | VString s => Normal s
  | VArray elems =>
      (fix join (l : list value) : completion string :=
         match l with
         | [] => Normal ""
         | e :: l' =>
             match (if is_nullish e then Normal "" else ToString e) with
             | Throw err => Throw err
             | Normal s =>
                 match l' with
                 | [] => Normal s
                 | _ =>
                     match join l' with
                     | Throw err => Throw err
                     | Normal rest => Normal (s +:+ "," +:+ rest)
                     end
                 end
             end
         end) elems
  | VObject fields =>
      match fields !! "toString" with
      | Some _ => Throw TypeError
      | None => Normal "[object Object]"
      end
  end.

End JS.

Export JS (value(..), exn(..), completion(..)).

(** ** The interface to the browser: [fetch], and asynchronous functions *)

Module Async.

(** A Response of the Fetch API: its status, and what [res.json()]
    resolves to (it rejects with a SyntaxError when the body is not
    JSON).  [res.ok] is derived from the status, as the Fetch standard
    defines it. *)
Record Response : Type := {
  status : Z;
  json : completion value
}.

Definition ok (res : Response) : bool :=
  (200 <=? status res) && (status res <=? 299).

(** What one run of an asynchronous routine meets: the settlement of
    [fetch] for every URL (a rejection when the request fails at the
    network level), and the moment the component's cleanup runs:
    [unmounted_from = Some k] when [isMounted] is already false at the time
    the [k]-th [await] of the routine resumes. *)
Record world : Type := {
  fetch_result : string -> completion Response;
  unmounted_from : option nat
}.

(** The state threaded through a run: the React state of the component
    (of type [V]), the URLs fetched so far (most recent first), and the
    number of [await]s of the routine that have resumed. *)
Record state (V : Type) : Type := {
  view : V;
  fetched : list string;
  clock : nat
}.
Arguments view {V} s.
Arguments fetched {V} s.
Arguments clock {V} s.

(** How a block of statements ends: normally with a value, by a throw, or
    by a [return] out of the enclosing function. *)
Inductive signal (A : Type) : Type :=
| Done (a : A)
| Thrown (e : exn)
| Returned.
Arguments Done {A} a.
Arguments Thrown {A} e.
Arguments Returned {A}.

Definition M (V A : Type) : Type := world -> state V -> signal A * state V.

Definition ret {V A} (a : A) : M V A := fun _ s => (Done a, s).

Definition bind {V A B} (c : M V A) (k : A -> M V B) : M V B :=
  fun w s =>
    match c w s with
    | (Done a, s') => k a w s'
    | (Thrown e, s') => (Thrown e, s')
    | (Returned, s') => (Returned, s')
    end.

Definition throw {V A} (e : exn) : M V A := fun _ s => (Thrown e, s).

(** [return;] *)
Definition return_ {V A} : M V A := fun _ s => (Returned, s).

(** [try { body } catch { handler }] *)
Definition try_catch {V A} (body handler : M V A) : M V A :=
  fun w s =>
    match body w s with
    | (Thrown _, s') => handler w s'
    | r => r
    end.

(** A synchronous computation that may throw. *)
Definition lift {V A} (c : completion A) : M V A :=
  match c with Normal a => ret a | Throw e => throw e end.

(** [fetch(url)] *)
Definition fetch {V} (url : string) : M V Response :=
  fun w s =>
    let s' := {| view := view s; fetched := url :: fetched s; clock := clock s |} in
    match fetch_result w url with
    | Normal res => (Done res, s')
    | Throw e => (Thrown e, s')
    end.

(** [await c] in the routine whose unmounting the world describes: when
    [c] has settled the routine resumes, one [await] later. *)
Definition await {V A} (c : M V A) : M V A :=
  fun w s =>
    let '(r, s') := c w s in
    (r, {| view := view s'; fetched := fetched s'; clock := S (clock s') |}).

(** The value of the flag [isMounted] once [k] [await]s have resumed. *)
Definition mounted_at (w : world) (k : nat) : bool :=
  match unmounted_from w with
  | None => true
  | Some u => bool_decide (k < u)%nat
  end.

(** Reading [isMounted]. *)
Definition isMounted {V} : M V bool :=
  fun w s => (Done (mounted_at w (clock s)), s).

(** A React state setter. *)
Definition set_view {V} (f : V -> V) : M V unit :=
  fun _ s => (Done tt, {| view := f (view s); fetched := fetched s; clock := clock s |}).

(** The state once an awaited call that fetches [url] has settled: the
    request is on record, and two [await]s have resumed (the one inside
    the callee and the caller's). *)
Definition called {V} (url : string) (s : state V) : state V :=
  {| view := view s; fetched := url :: fetched s; clock := S (S (clock s)) |}.

Definition with_view {V} (f : V -> V) (s : state V) : state V :=
  {| view := f (view s); fetched := fetched s; clock := clock s |}.

(** Two worlds that differ at most in what one URL is answered. *)
Definition same_except (url : string) (w1 w2 : world) : Prop :=
  unmounted_from w1 = unmounted_from w2 /\
  forall u, u <> url -> fetch_result w1 u = fetch_result w2 u.

(** What a routine that leaves the component alone settles to in a world. *)
Definition outcome {A} (c : M unit A) (w : world) : signal A :=
  (c w {| view := tt; fetched := []; clock := 0 |}).1.

End Async.

Export Async (Response, world, signal(..)).

Declare Scope async_scope.
Delimit Scope async_scope with async.
Notation "x <- c ;; k" := (Async.bind c (fun x => k))
  (at level 100, c at next level, right associativity) : async_scope.
Notation "c ;; k" := (Async.bind c (fun _ => k))
  (at level 100, right associativity) : async_scope.

Local Open Scope async_scope.

(** ** [web-dashboard/src/api.ts] *)

Module Api.
Import JS Async.

Definition API_BASE : string := "/api".

(** The declared fields of the response types; all of them are optional. *)
Definition ModelInfoResponse_fields : list string :=
  ["model_name"; "xgb_version"; "requests_per_min"].
Definition StatisticsResponse_fields : list string :=
  ["total_requests"; "requests_per_min"; "uptime_seconds"].

(** A value is an object with exactly the given property names. *)
Definition has_exactly_fields (v : value) (names : list string) : Prop :=
  exists fields : gmap string value,
    v = VObject fields /\ dom fields = (list_to_set names : gset string).

(** The template literal [`${label} ${res.status}`]. *)
Definition status_message (label : string) (res : Response) : string :=
  label +:+ " " +:+ JSNumber.to_string (Binary64.of_Z (status res)).

Definition getHealth {V} : M V value :=
  res <- await (fetch (API_BASE +:+ "/health")) ;;
  if negb (ok res) then throw (Error (status_message "Health" res))
  else lift (json res).

Definition getModelInfo {V} : M V value :=
  res <- await (fetch (API_BASE +:+ "/model_info")) ;;
  if negb (ok res) then throw (Error (status_message "ModelInfo" res))
  else lift (json res).

Definition getStatistics {V} : M V value :=
  res <- await (fetch (API_BASE +:+ "/statistics")) ;;
  if negb (ok res) then throw (Error (status_message "Statistics" res))
  else lift (json res).

(** What a call of one of the three functions settles to, given the
    response that [fetch] resolved to: the function's own Error when the
    response is not ok, and otherwise whatever [res.json()] settles to. *)
Definition settles_as (label : string) (res : Response) (r : signal value) : Prop :=
  (ok res = false ->
     r = Thrown (Error (label +:+ " " +:+ JSNumber.to_string (Binary64.of_Z (status res))))) /\
  (ok res = true ->
     r = match json res with Normal body => Done body | Throw e => Thrown e end).

Definition sixty : number := Binary64.of_Z 60.

(** The template literal [`${x.toFixed(2)} req/s`]. *)
Definition per_second_text (x : number) : string :=
  JSNumber.toFixed x 2 +:+ " req/s".

Definition formatThroughputFromStats (stats : value) : completion string :=
  if negb (ToBoolean stats) then Normal "-- req/s"
  else
    match get stats "requests_per_min" with
    | Throw e => Throw e
    | Normal field =>
        let rpm := as_number field in
        match rpm with
        | None => Normal "-- req/s"
        | Some rpm => Normal (per_second_text (Binary64.div rpm sixty))
        end
    end.

End Api.

(** ** The [load] routine of the dashboard's [App] component *)

Module App.
Import JS Async Api.

Inductive ApiStatus : Type := loading | up | down.

(** The three [React.useState] cells. *)
Record View : Type := {
  apiStatus : ApiStatus;
  modelName : string;
  throughput : string
}.

Definition initial : View :=
  {| apiStatus := loading; modelName := "Loading..."; throughput := "-- req/s" |}.

Definition set_status (a : ApiStatus) (v : View) : View :=
  {| apiStatus := a; modelName := modelName v; throughput := throughput v |}.
Definition set_name (n : string) (v : View) : View :=
  {| apiStatus := apiStatus v; modelName := n; throughput := throughput v |}.
Definition set_throughput (t : string) (v : View) : View :=
  {| apiStatus := apiStatus v; modelName := modelName v; throughput := t |}.

Definition setApiStatus (a : ApiStatus) : M View unit := set_view (set_status a).
Definition setModelName (n : string) : M View unit := set_view (set_name n).
Definition setThroughput (t : string) : M View unit := set_view (set_throughput t).

(** [info?.model_name || info?.xgb_version || 'Hybrid Model'] *)
Definition display_name (info : value) : value :=
  or_else (or_else (get_optional info "model_name") (get_optional info "xgb_version"))
          (VString "Hybrid Model").

(** The fallback to the statistics, which occurs twice in [load]:
    [try { const stats = await getStatistics(); if (!isMounted) return;
           setThroughput(formatThroughputFromStats(stats)) } catch { }] *)
Definition throughput_from_statistics : M View unit :=
  try_catch
    (stats <- await getStatistics ;;
     mounted <- isMounted ;;
     if negb mounted then return_
     else
       text <- lift (formatThroughputFromStats stats) ;;
       setThroughput text)
    (ret tt).

(** The first [try] of [load]. *)
Definition health_block : M View unit :=
  try_catch
    (health <- await getHealth ;;
     mounted <- isMounted ;;
     if negb mounted then return_
     else
       setApiStatus
         (if strict_equals_string (get_optional health "status") "ok" then up else down))
    (mounted <- isMounted ;;
     if negb mounted then return_ else setApiStatus down).

(** The second [try] of [load]. *)
Definition model_info_block : M View unit :=
  try_catch
    (info <- await getModelInfo ;;
     mounted <- isMounted ;;
     if negb mounted then return_
     else
       let name := display_name info in
       text <- lift (ToString name) ;;
       setModelName text ;;
       match as_number (get_optional info "requests_per_min") with
       | Some requests_per_min =>
           let perSec := Binary64.div requests_per_min sixty in
           setThroughput (per_second_text perSec)
       | None => throughput_from_statistics
       end)
    (mounted <- isMounted ;;
     if negb mounted then return_
     else
       setModelName "Unavailable" ;;
       throughput_from_statistics).

Definition load : M View unit :=
  health_block ;;
  model_info_block.

(** When [load] reads [isMounted]: [await getHealth()] is the second
    [await] of a run to resume (the first one is inside [getHealth]),
    [await getModelInfo()] the fourth and [await getStatistics()] the
    sixth. *)
Definition after_health : nat := 2.
Definition after_model_info : nat := 4.
Definition after_statistics : nat := 6.

(** One run of [load] from a view, and what it leaves. *)
Definition start (v : View) : state View :=
  {| view := v; fetched := []; clock := 0 |}.

Definition run_load (w : world) (v : View) : state View := (load w (start v)).2.

(** [load(); setInterval(load, 5000)]: the runs follow each other, each
    in the world it meets. *)
Definition run_loads (ws : list world) (v : View) : View :=
  foldl (fun v w => view (run_load w v)) v ws.

(** The text the component renders for the API status. *)
Definition status_text (a : ApiStatus) : string :=
  match a with loading => "Checking..." | up => "Online" | down => "Offline" end.

End App.

(** ** The declared response types, and what the component renders *)

Module Page.
Import JS Async App.

(** A property declared [name?: string]: absent, or a string. *)
Definition optional_string (v : value) : bool :=
  match v with VUndefined | VString _ => true | _ => false end.

(** A property declared [name?: number]: absent, or a number. *)
Definition optional_number (v : value) : bool :=
  match v with VUndefined | VNumber _ => true | _ => false end.

(** The values of type [ModelInfoResponse]. *)
Definition is_ModelInfoResponse (v : value) : bool :=
  match v with
  | VObject _ =>
      optional_string (get_optional v "model_name") &&
      optional_string (get_optional v "xgb_version") &&
      optional_number (get_optional v "requests_per_min")
  | _ => false
  end.

(** The values of type [StatisticsResponse]. *)
Definition is_StatisticsResponse (v : value) : bool :=
  match v with
  | VObject _ =>
      optional_number (get_optional v "total_requests") &&
      optional_number (get_optional v "requests_per_min") &&
      optional_number (get_optional v "uptime_seconds")
  | _ => false
  end.

(** [a === b] on the values of the state cell [apiStatus]. *)
Definition status_equals (a b : ApiStatus) : bool :=
  match a, b with
  | loading, loading | up, up | down, down => true
  | _, _ => false
  end.

(** The parts of the rendered page that depend on the state: the class and
    the text of the status paragraph, the title and the text of the model
    paragraph, and the text of the throughput paragraph. *)
Record Panels : Type := {
  status_className : string;
  status_label : string;
  model_title : string;
  model_label : string;
  throughput_label : string
}.

Definition render (v : View) : Panels :=
  {| status_className :=
       "mt-3 text-2xl font-semibold " +:+
       (if status_equals (apiStatus v) up then "text-emerald-400"
        else if status_equals (apiStatus v) down then "text-rose-400"
        else "");
     status_label :=
       if status_equals (apiStatus v) loading then "Checking..."
       else if status_equals (apiStatus v) up then "Online"
       else "Offline";
     model_title := modelName v;
     model_label := modelName v;
     throughput_label := throughput v |}.

(** What the page shows after the runs of [load] that polling starts, one
    world for each run. *)
Definition poll (ws : list world) : Panels := render (run_loads ws initial).

End Page.

(** ** Concrete runs *)

Module Scenario.
Import JS Async.

Definition num (m e : Z) : value := VNumber (Binary64.of_decimal m e).

Definition respond (code : Z) (body : value) : completion Response :=
  Normal {| status := code; json := Normal body |}.

(** A server that answers the three endpoints, and no other URL. *)
Definition serve (health info stats : completion Response) (url : string)
    : completion Response :=
  if bool_decide (url = "/api/health") then health
  else if bool_decide (url = "/api/model_info") then info
  else if bool_decide (url = "/api/statistics") then stats
  else Throw TypeError.

Definition health_ok : value := VObject {[ "status" := VString "ok" ]}.

Definition statistics_90 : value :=
  VObject {[ "total_requests" := num 500 0;
             "requests_per_min" := num 90 0;
             "uptime_seconds" := num 3600 0 ]}.

(** The model information carries [requests_per_min]. *)
Definition info_with_rate (requests_per_min : value) : value :=
  VObject {[ "model_name" := VString "Hybrid v2";
             "requests_per_min" := requests_per_min ]}.

(** The model information carries a version only. *)
Definition info_without_rate : value :=
  VObject {[ "xgb_version" := VString "xgb-1.7" ]}.

Definition world_with_rate (requests_per_min : value) : world :=
  {| fetch_result :=
       serve (respond 200 health_ok)
             (respond 200 (info_with_rate requests_per_min))
             (respond 200 statistics_90);
     unmounted_from := None |}.

Definition world_without_rate : world :=
  {| fetch_result :=
       serve (respond 200 health_ok) (respond 200 info_without_rate)
             (respond 200 statistics_90);
     unmounted_from := None |}.

(** Every endpoint answers 200 with a body that is not JSON (as a
    development server does that serves its index page for unknown
    paths). *)
Definition world_not_json : world :=
  {| fetch_result :=
       let page := Normal {| status := 200; json := Throw SyntaxError |} in
       serve page page page;
     unmounted_from := None |}.

(** The back end is down: the proxy answers 503. *)
Definition world_unavailable : world :=
  {| fetch_result :=
       let bad := Normal {| status := 503; json := Throw SyntaxError |} in
       serve bad bad bad;
     unmounted_from := None |}.

(** The statistics carry the throughput only. *)
Definition statistics_sparse : value :=
  VObject {[ "requests_per_min" := num 90 0 ]}.

Definition world_sparse_statistics : world :=
  {| fetch_result :=
       serve (respond 200 health_ok) (respond 200 info_without_rate)
             (respond 200 statistics_sparse);
     unmounted_from := None |}.

(** The model information carries a rate, and a name that [String]
    cannot convert: an object whose own property [toString] is not
    callable. *)
Definition info_unshowable : value :=
  VObject {[ "model_name" := VObject {[ "toString" := VNull ]};
             "requests_per_min" := num 120 0 ]}.

Definition world_unshowable_name : world :=
  {| fetch_result :=
       serve (respond 200 health_ok) (respond 200 info_unshowable)
             (respond 200 statistics_90);
     unmounted_from := None |}.

(** Every endpoint answers, the model information with a rate of 120; the
    component is unmounted before the [k]-th [await] of the run resumes. *)
Definition world_unmounted_from (k : nat) : world :=
  {| fetch_result := fetch_result (world_with_rate (num 120 0));
     unmounted_from := Some k |}.

(** A server that answers the statistics with the given body. *)
Definition world_statistics (body : value) : world :=
  {| fetch_result :=
       serve (respond 200 health_ok) (respond 200 info_without_rate) (respond 200 body);
     unmounted_from := None |}.

End Scenario.

Local Close Scope async_scope.

(** ** The scoring core

    The core (fuser, post-filter, rate limiter, statistics aggregator) is
    served by the Python back end, which is not part of the sources at
    hand; its components are modelled from the specification. *)

Module Core.

(** A decimal literal [m * 10^e] as a float. *)
Definition lit (m e : Z) : number := Binary64.of_decimal m e.

(** Modelled from the spec: the error taxonomy of section 7; the back end
    that raises these errors is absent from the sources. *)
Inductive CoreError : Type :=
| InvalidSessionError
| RateLimitExceededError
| ModelUnavailableError
| ScoringAnomalyError
| PersistenceError.

Definition result (A : Type) : Type := CoreError + A.

(** *** Data model (section 3) *)

(** Modelled from the spec: an event of a session (section 3), with times
    in seconds; the back end's event type is absent from the sources. *)
Record Event : Type := {
  timestamp : Z;
  user_id : string;
  action : string;
  source_ip : string
}.

(** Modelled from the spec: a session, the ordered sequence of its events
    (section 3). *)
Definition Session : Type := list Event.

(** Modelled from the spec: the verdict of section 3; the back end's type
    is absent from the sources. *)
Record Verdict : Type := {
  fused_score : number;
  xgb_score : number;
  lstm_score : number;
  is_alert : bool;
  filtered : bool;
  reason : option string;
  model_version : string;
  computed_at : Z
}.

(** Modelled from the spec: a record of the prediction store (section 3),
    absent from the sources. *)
Record PredictionRecord : Type := {
  session_key : string;
  verdict : Verdict;
  latency_ms : Z;
  stored_at : Z
}.

(** Modelled from the spec: the statistics snapshot of section 3, absent
    from the sources. *)
Record StatisticsSnapshot : Type := {
  total_requests : Z;
  alert_rate : number;
  requests_per_min : Z;
  uptime_seconds : Z
}.

(** *** EnsembleFuser (section 4.3) *)

(** Modelled from the spec: a sub-score as a scorer delivers it (sections
    4.2 and 4.3), absent from the sources: a number, or NaN.  The numbers
    are exact rationals: the spec gives the algorithm, and computes its
    example, in exact arithmetic. *)
Inductive Score : Type :=
| Exactly (q : Q)
| NaN.

(** Modelled from the spec: the injected configuration of the fuser
    (section 4.3), absent from the sources. *)
Record FuserConfig : Type := {
  xgb_weight : Q;
  lstm_weight : Q;
  threshold : Q
}.

(** Modelled from the spec: the default configuration of the fuser, which
    the back end reads from its YAML file: weights 0.6 and 0.4, threshold
    0.5. *)
Definition default_fuser : FuserConfig :=
  {| xgb_weight := 6 # 10; lstm_weight := 4 # 10; threshold := 5 # 10 |}.

(** Modelled from the spec: the check of a sub-score, absent from the
    sources: a score is anomalous when it is NaN or outside [0,1]. *)
Definition valid_score (s : Score) : bool :=
  match s with
  | Exactly q => Qle_bool 0 q && Qle_bool q 1
  | NaN => false
  end.

(** Modelled from the spec: [fuse] of the EnsembleFuser, absent from the
    sources: [fused = w_xgb * xgb_score + w_lstm * lstm_score];
    ScoringAnomalyError, and no clamping, on an anomalous sub-score. *)
Definition fuse (cfg : FuserConfig) (xgb_score lstm_score : Score) : result Q :=
  match xgb_score, lstm_score with
  | Exactly x, Exactly l =>
      if valid_score xgb_score && valid_score lstm_score
      then inr (xgb_weight cfg * x + lstm_weight cfg * l)%Q
      else inl ScoringAnomalyError
  | _, _ => inl ScoringAnomalyError
  end.


(** *** PostFilter (section 4.4) *)

(** Modelled from the spec: the parameters of the post-filter rules
    (section 4.4), absent from the sources. *)
Record FilterConfig : Type := {
  min_duration : Z;
  benign_patterns : list (list string)
}.

(** Modelled from the spec: the duration of a session, last timestamp
    minus first timestamp (0 for a session without events). *)
Definition duration (s : Session) : Z :=
  match s, List.last (map Some s) None with
  | first :: _, Some final => timestamp final - timestamp first
  | _, _ => 0
  end.

Fixpoint is_prefix (p l : list string) : bool :=
  match p, l with
  | [], _ => true
  | a :: p', b :: l' => bool_decide (a = b) && is_prefix p' l'
  | _ :: _, [] => false
  end.

(** Modelled from the spec: the rules of the PostFilter, absent from the
    sources, as the ordered list of predicates and reasons that the design
    notes ask for: (a) exactly one event, (b) duration below the minimum,
    (c) the actions match a benign pattern, exactly or by prefix. *)
Definition rules (cfg : FilterConfig) : list ((Session -> bool) * string) :=
  [ (fun s => bool_decide (length s = 1%nat), "single_action");
    (fun s => duration s <? min_duration cfg, "short_duration");
    (fun s => existsb (fun p => is_prefix p (map action s)) (benign_patterns cfg),
     "benign_pattern") ].

(** Modelled from the spec: [filter] of the PostFilter, absent from the
    sources: the first rule that matches demotes the verdict and records
    its reason; a session that passes all rules leaves the verdict
    unchanged. *)
Definition filter (cfg : FilterConfig) (s : Session) (v : Verdict) : Verdict :=
  match List.find (fun rule => rule.1 s) (rules cfg) with
  | Some rule =>
      {| fused_score := fused_score v;
         xgb_score := xgb_score v;
         lstm_score := lstm_score v;
         is_alert := false;
         filtered := true;
         reason := Some rule.2;
         model_version := model_version v;
         computed_at := computed_at v |}
  | None => v
  end.

(** *** RateLimiter (section 4.6) *)

(** Modelled from the spec: the two window policies that section 4.6
    allows, and the injected quota and window; the limiter is absent from
    the sources. *)
Inductive WindowPolicy : Type := FixedWindow | SlidingWindow.

Record LimiterConfig : Type := {
  quota : nat;
  window : Z;
  policy : WindowPolicy
}.

(** Modelled from the spec: the default quota, 100 admissions per window
    of 60 seconds, for either window policy. *)
Definition default_limiter (p : WindowPolicy) : LimiterConfig :=
  {| quota := 100; window := 60; policy := p |}.

(** Modelled from the spec: what the limiter keeps for a client: the start
    of the current fixed window and the admissions counted in it, or the
    times of the admissions of the sliding window. *)
Inductive ClientWindow : Type :=
| Fixed (started : Z) (count : nat)
| Sliding (admissions : list Z).

(** Modelled from the spec: [admit] of the RateLimiter, absent from the
    sources, with the time of the request (in seconds) as an argument.
    Fixed window: a window opens with the first request of a client and
    lasts [window] seconds; at most [quota] requests are admitted in it.
    Sliding window: a request is admitted when fewer than [quota] requests
    were admitted in the last [window] seconds. *)
Definition admit_request (cfg : LimiterConfig) (now : Z) (client_id : string)
    (st : gmap string ClientWindow) : bool * gmap string ClientWindow :=
  match policy cfg with
  | FixedWindow =>
      let fresh :=
        if bool_decide (0 < quota cfg)%nat
        then (true, <[client_id := Fixed now 1]> st)
        else (false, st) in
      match st !! client_id with
      | Some (Fixed started count) =>
          if now <? started + window cfg then
            if bool_decide (count < quota cfg)%nat
            then (true, <[client_id := Fixed started (S count)]> st)
            else (false, st)
          else fresh
      | _ => fresh
      end
  | SlidingWindow =>
      let recent :=
        List.filter (fun t => now - window cfg <? t)
          (match st !! client_id with Some (Sliding ts) => ts | _ => [] end) in
      if bool_decide (length recent < quota cfg)%nat
      then (true, <[client_id := Sliding (now :: recent)]> st)
      else (false, <[client_id := Sliding recent]> st)
  end.

(** Modelled from the spec: the admission step of the orchestrator, absent
    from the sources: a denial reaches the caller as
    RateLimitExceededError. *)
Definition request_admission (cfg : LimiterConfig) (now : Z) (client_id : string)
    (st : gmap string ClientWindow) : result unit * gmap string ClientWindow :=
  let '(allowed, st') := admit_request cfg now client_id st in
  (if allowed then inr tt else inl RateLimitExceededError, st').

(** The requests of one client at the given times, in order. *)
Fixpoint request_all (cfg : LimiterConfig) (times : list Z) (client_id : string)
    (st : gmap string ClientWindow) : list (result unit) * gmap string ClientWindow :=
  match times with
  | [] => ([], st)
  | now :: times' =>
      let '(r, st') := request_admission cfg now client_id st in
      let '(rs, st'') := request_all cfg times' client_id st' in
      (r :: rs, st'')
  end.

(** The client has no admission on record in the [window] seconds before
    [t0]. *)
Definition quiet (cfg : LimiterConfig) (t0 : Z) (cw : option ClientWindow) : Prop :=
  match policy cfg, cw with
  | FixedWindow, Some (Fixed started _) => started + window cfg <= t0
  | SlidingWindow, Some (Sliding ts) => Forall (fun t => t <= t0 - window cfg) ts
  | _, _ => True
  end.

(** The limiter has counted [k] admissions of the client in the window that
    the request at [t0] opened. *)
Definition tracks (p : WindowPolicy) (t0 : Z) (k : nat) (cw : option ClientWindow) : Prop :=
  match p, cw with
  | FixedWindow, Some (Fixed started count) => started = t0 /\ count = k
  | SlidingWindow, Some (Sliding ts) =>
      length ts = k /\ Forall (fun t => t0 <= t) ts /\ In t0 ts
  | _, _ => False
  end.

(** *** StatisticsAggregator (section 4.8) *)

(** Modelled from the spec: the raw counts that the store hands to the
    aggregator (section 4.7), absent from the sources. *)
Record RawCounts : Type := {
  total : Z;
  alerts : Z;
  last_minute : Z
}.

(** Modelled from the spec: [aggregate] of the PredictionStore, absent
    from the sources: the raw counts over the append-only log. *)
Definition aggregate (store : list PredictionRecord) (now : Z) : RawCounts :=
  {| total := Z.of_nat (length store);
     alerts := Z.of_nat (length (List.filter (fun r => is_alert (verdict r)) store));
     last_minute :=
       Z.of_nat (length (List.filter
                           (fun r => (now - 60 <? stored_at r) && (stored_at r <=? now))
                           store)) |}.

(** Modelled from the spec: the division of two counts, which must not be
    reached with a zero divisor: [None] stands for the division error. *)
Definition divide (a b : Z) : option number :=
  if b =? 0 then None
  else Some (Binary64.div (Binary64.of_Z a) (Binary64.of_Z b)).

(** Modelled from the spec: [snapshot] of the StatisticsAggregator, absent
    from the sources: [alert_rate = alerts / total_requests], and 0 when
    there are no requests; [None] stands for a division error. *)
Definition snapshot (store : list PredictionRecord) (process_start now : Z)
    : option StatisticsSnapshot :=
  let counts := aggregate store now in
  match (if total counts =? 0 then Some (lit 0 0) else divide (alerts counts) (total counts)) with
  | None => None
  | Some rate =>
      Some {| total_requests := total counts;
              alert_rate := rate;
              requests_per_min := last_minute counts;
              uptime_seconds := now - process_start |}
  end.

End Core.

(** ** [scripts/run_everything.ps1] *)

Module Script.

(** The parameters of the script, with their defaults. *)
Record Params : Type := {
  ApiHost : string;
  ApiPort : Z;
  StreamlitPort : Z;
  VitePort : Z;
  NoStreamlit : bool;
  NoReact : bool;
  RunDemo : bool;
  OpenBrowser : bool
}.

Definition default_params : Params :=
  {| ApiHost := "127.0.0.1"; ApiPort := 8000; StreamlitPort := 8501; VitePort := 5173;
     NoStreamlit := false; NoReact := false; RunDemo := false; OpenBrowser := false |}.

(** An [int] inside a double-quoted string. *)
Definition int_text (n : Z) : string :=
  if n <? 0 then "-" +:+ JSNumber.digits (- n) else JSNumber.digits n.

(** Whether a path ends with a backslash or a slash. *)
Fixpoint ends_with_separator (s : string) : bool :=
  match s with
  | EmptyString => false
  | String c EmptyString => bool_decide (c = "\"%char) || bool_decide (c = "/"%char)
  | String _ r => ends_with_separator r
  end.

(** [Join-Path parent child] for a [child] that does not start with a
    separator: one separator between the two. *)
Definition Join_Path (parent child : string) : string :=
  if ends_with_separator parent then parent +:+ child else parent +:+ "\" +:+ child.

(** What [Invoke-WebRequest] does with a request: it returns a response
    with a status code, or it throws (no connection, a timeout, an error
    status). *)
Inductive reply : Type :=
| Answered (StatusCode : Z)
| Failed.

(** The machine the script runs on: the directory above the script's own
    ([Resolve-Path (Join-Path $ScriptDir '..')]), which files exist, and
    for a request to a URL started at a time (in milliseconds) its reply
    and how long it takes. *)
Record machine : Type := {
  ProjectRoot : string;
  Test_Path : string -> bool;
  Invoke_WebRequest : string -> Z -> reply * N
}.

Inductive Color : Type := Cyan | Green | Yellow | Red.

Inductive job : Type := ApiJob | StreamlitJob | ReactJob.

(** What the script does to the machine, as far as it can be observed. *)
Inductive effect : Type :=
| Write_Host (text : string) (ForegroundColor : Color)
| Stop_Process (ProcessName : list string)
| Start_Job (j : job) (ArgumentList : list string)
| Receive_Job (j : job)
| Requested (Uri : string)
| Start_Sleep (Milliseconds : Z)
| Start_Process (target : string)
| Call (command : string) (arguments : list string).

(** The clock (in milliseconds) and the effects so far, most recent
    first.  Time passes while a request is under way and during
    [Start-Sleep]. *)
Record run_state : Type := {
  now : Z;
  effects : list effect
}.

(** A statement goes on to the next one, or ends the script by [exit]. *)
Inductive step (A : Type) : Type :=
| Next (a : A)
| Exit (code : Z).
Arguments Next {A} a.
Arguments Exit {A} code.

(** A command: [None] when the steps allowed for the loop of
    [Test-Http200] do not suffice. *)
Definition PS (A : Type) : Type := run_state -> option (step A * run_state).

Definition ret {A} (a : A) : PS A := fun s => Some (Next a, s).

Definition bind {A B} (c : PS A) (k : A -> PS B) : PS B :=
  fun s =>
    match c s with
    | Some (Next a, s') => k a s'
    | Some (Exit code, s') => Some (Exit code, s')
    | None => None
    end.

Definition exit {A} (code : Z) : PS A := fun s => Some (Exit code, s).

Definition perform (e : effect) : PS unit :=
  fun s => Some (Next tt, {| now := now s; effects := e :: effects s |}).

(** [a -or b]: the right operand is not evaluated when the left one is
    true. *)
Definition or_ (a b : PS bool) : PS bool :=
  bind a (fun x => if x then ret true else b).

Definition Write_Info (m : string) : PS unit := perform (Write_Host ("[INFO] " +:+ m) Cyan).
Definition Write_Ok (m : string) : PS unit := perform (Write_Host ("[OK]  " +:+ m) Green).
Definition Write_Warn (m : string) : PS unit := perform (Write_Host ("[WARN] " +:+ m) Yellow).
Definition Write_Err (m : string) : PS unit := perform (Write_Host ("[ERR] " +:+ m) Red).

(** The loop of [Test-Http200], for at most [steps] tests of its
    condition. *)
Fixpoint Test_Http200_until (steps : nat) (m : machine) (url : string) (deadline : Z)
    : PS bool :=
  fun s =>
    match steps with
    | O => None
    | S steps' =>
        if now s <? deadline then
          let '(resp, took) := Invoke_WebRequest m url (now s) in
          let s1 := {| now := now s + Z.of_N took; effects := Requested url :: effects s |} in
          match resp with
          | Answered StatusCode =>
              if StatusCode =? 200 then Some (Next true, s1)
              else Test_Http200_until steps' m url deadline s1
          | Failed =>
              Test_Http200_until steps' m url deadline
                {| now := now s1 + 500; effects := Start_Sleep 500 :: effects s1 |}
          end
        else Some (Next false, s)
    end.

Definition Test_Http200 (steps : nat) (m : machine) (url : string) (timeoutSec : Z)
    : PS bool :=
  fun s =>
    let deadline := now s + timeoutSec * 1000 in
    Test_Http200_until steps m url deadline s.

Declare Scope ps_scope.
Delimit Scope ps_scope with ps.
Notation "x <- c ;; k" := (bind c (fun x => k))
  (at level 100, c at next level, right associativity) : ps_scope.
Notation "c ;; k" := (bind c (fun _ => k))
  (at level 100, right associativity) : ps_scope.
Local Open Scope ps_scope.

Definition PythonPath (m : machine) : string :=
  Join_Path (ProjectRoot m) ".venv\Scripts\python.exe".
Definition AppDir (m : machine) : string := Join_Path (ProjectRoot m) "insider-detect".
Definition StreamlitApp (m : machine) : string :=
  Join_Path (AppDir m) "dashboard\streamlit_app.py".
Definition WebDir (m : machine) : string := Join_Path (ProjectRoot m) "web-dashboard".

Definition api_url (p : Params) : string :=
  "http://" +:+ ApiHost p +:+ ":" +:+ int_text (ApiPort p).
Definition local_url (port : Z) : string := "http://localhost:" +:+ int_text port.

(** [if (-not $NoStreamlit) { ... }] *)
Definition start_streamlit (steps : nat) (m : machine) (p : Params) : PS unit :=
  if negb (NoStreamlit p) then
    Write_Info ("Starting Streamlit on " +:+ local_url (StreamlitPort p)) ;;
    perform (Start_Job StreamlitJob
               [PythonPath m; StreamlitApp m; int_text (StreamlitPort p)]) ;;
    reachable <- Test_Http200 steps m (local_url (StreamlitPort p)) 30 ;;
    if negb reachable then
      Write_Warn ("Streamlit not reachable on port " +:+ int_text (StreamlitPort p))
    else Write_Ok "Streamlit is up"
  else ret tt.

(** [if (-not $NoReact) { ... }] *)
Definition start_react (steps : nat) (m : machine) (p : Params) : PS unit :=
  if negb (NoReact p) then
    Write_Info ("Starting React (Vite) on " +:+ local_url (VitePort p)) ;;
    perform (Start_Job ReactJob [WebDir m; int_text (VitePort p)]) ;;
    viteOk <- or_ (or_ (Test_Http200 steps m (local_url (VitePort p)) 25)
                       (Test_Http200 steps m "http://localhost:5174" 5))
                  (Test_Http200 steps m "http://localhost:5175" 5) ;;
    if viteOk then Write_Ok "React dev server is up"
    else Write_Warn "React dev server not responding yet"
  else ret tt.

(** [if ($OpenBrowser) { ... }] *)
Definition open_browser (p : Params) : PS unit :=
  if OpenBrowser p then
    (if negb (NoReact p) then perform (Start_Process (local_url (VitePort p)))
     else ret tt) ;;
    (if negb (NoStreamlit p) then perform (Start_Process (local_url (StreamlitPort p)))
     else ret tt) ;;
    perform (Start_Process (api_url p +:+ "/docs"))
  else ret tt.

(** [if ($RunDemo) { ... }] *)
Definition run_demo (m : machine) (p : Params) : PS unit :=
  if RunDemo p then
    Write_Info "Running demo script" ;;
    perform (Call (PythonPath m) [Join_Path (AppDir m) "demo\run_demo.py"])
  else ret tt.

(** The script, from its first statement after the definitions. *)
Definition run_everything (steps : nat) (m : machine) (p : Params) : PS unit :=
  Write_Info "Stopping any previous node/npm/python (dev servers)" ;;
  perform (Stop_Process ["node"; "npm"; "python"]) ;;
  Write_Info ("Using Python at: " +:+ PythonPath m) ;;
  (if negb (Test_Path m (PythonPath m)) then
     Write_Err ("Python not found at " +:+ PythonPath m) ;; exit 1
   else ret tt) ;;
  Write_Info ("Starting API on " +:+ api_url p) ;;
  perform (Start_Job ApiJob [PythonPath m; ApiHost p; int_text (ApiPort p); AppDir m]) ;;
  healthy <- Test_Http200 steps m (api_url p +:+ "/health") 40 ;;
  (if negb healthy then
     Write_Err "API failed to become healthy" ;;
     perform (Receive_Job ApiJob) ;;
     exit 1
   else ret tt) ;;
  Write_Ok "API is healthy" ;;
  start_streamlit steps m p ;;
  start_react steps m p ;;
  open_browser p ;;
  run_demo m p ;;
  Write_Ok "All tasks dispatched. Use Get-Job to inspect background jobs.".

(** The script run from the start. *)
Definition started : run_state := {| now := 0; effects := [] |}.

(** Every request that is answered takes time, unless the answer is 200:
    what the loop of [Test-Http200] needs to come to an end, as it does not
    sleep after an answer other than 200. *)
Definition answers_take_time (m : machine) : Prop :=
  forall url t code took,
    Invoke_WebRequest m url t = (Answered code, took) -> code <> 200 -> (0 < took)%N.

(** The requests made, the jobs started, the pages opened and the lines
    written, in order. *)
Definition requests (es : list effect) : list string :=
  omap (fun e => match e with Requested url => Some url | _ => None end) (rev es).
Definition opened (es : list effect) : list string :=
  omap (fun e => match e with Start_Process t => Some t | _ => None end) (rev es).
Definition written (es : list effect) : list string :=
  omap (fun e => match e with Write_Host t _ => Some t | _ => None end) (rev es).

(** What the loop of [Test-Http200] does for a URL: requests to it, and
    sleeps of half a second. *)
Definition probe_of (url : string) (e : effect) : Prop :=
  e = Requested url \/ e = Start_Sleep 500.

(** A machine on which nothing answers, and one on which every server
    answers 200 from a given time on. *)
Definition dead_machine : machine :=
  {| ProjectRoot := "C:\repo";
     Test_Path := fun _ => true;
     Invoke_WebRequest := fun _ _ => (Failed, 2000%N) |}.

Definition machine_up_from (t0 : Z) : machine :=
  {| ProjectRoot := "C:\repo";
     Test_Path := fun _ => true;
     Invoke_WebRequest := fun _ t =>
       if t <? t0 then (Failed, 1000%N) else (Answered 200, 20%N) |}.

(** A machine on which every request is answered 204 (No Content) after
    a tenth of a second. *)
Definition machine_no_content : machine :=
  {| ProjectRoot := "C:\repo";
     Test_Path := fun _ => true;
     Invoke_WebRequest := fun _ _ => (Answered 204, 100%N) |}.

(** A machine on which the API answers, and the React server answers on
    port 5174 only. *)
Definition machine_vite_on_5174 : machine :=
  {| ProjectRoot := "C:\repo";
     Test_Path := fun _ => true;
     Invoke_WebRequest := fun url _ =>
       if bool_decide (url = "http://127.0.0.1:8000/health") ||
          bool_decide (url = "http://localhost:5174")
       then (Answered 200, 20%N) else (Failed, 1000%N) |}.

(** No request takes longer than [limit] milliseconds. *)
Definition requests_within (m : machine) (limit : Z) : Prop :=
  forall url t, Z.of_N (Invoke_WebRequest m url t).2 <= limit.

(** A command that comes to an end within [bound] milliseconds. *)
Definition takes {A} (c : PS A) (bound : Z) : Prop :=
  forall s, exists r s', c s = Some (r, s') /\ now s <= now s' <= now s + bound.


End Script.

(** * Properties *)

(** ** The text of a number *)

Section NumberText.
Import JSNumber Decimal.

Lemma digit_char_plain d : digit_char d <> "-"%char.
Proof.
  unfold digit_char.
  repeat match goal with
         | |- context [match ?x with _ => _ end] => destruct x
         end; discriminate.
Qed.

Lemma digits_aux_plain fuel : forall n acc,
  (fuel <> 0%nat \/ starts_plain acc) -> starts_plain (digits_aux fuel n acc).
Proof.
  induction fuel as [|fuel IH]; intros n acc H; simpl.
  - destruct H as [H|H]; [congruence | exact H].
  - assert (Hacc : starts_plain (String (digit_char (n mod 10)) acc)).
    { eexists _, _. split; [reflexivity | apply digit_char_plain]. }
    destruct (n <? 10); [exact Hacc | apply IH; right; exact Hacc].
Qed.

Lemma digits_plain n : starts_plain (digits n).
Proof. apply digits_aux_plain. left. discriminate. Qed.

Lemma starts_plain_app s t : starts_plain s -> starts_plain (s +:+ t).
Proof. intros (c & r & -> & Hc). exists c, (r +:+ t). split; [reflexivity | exact Hc]. Qed.

Lemma starts_plain_take n s : starts_plain s -> starts_plain (str_take (S n) s).
Proof.
  intros (c & r & -> & Hc). exists c, (String.substring 0 n r).
  split; [reflexivity | exact Hc].
Qed.

Lemma positive_to_string_plain m e : starts_plain (positive_to_string m e).
Proof.
  unfold positive_to_string.
  destruct (shortest m e) as [[s n] k].
  pose proof (digits_plain s) as Hd.
  destruct (_ && _); [by apply starts_plain_app |].
  destruct (andb (0 <? n) _) eqn:Hn.
  { apply andb_prop in Hn as [Hn _]. apply Z.ltb_lt in Hn.
    destruct (Z.to_nat n) as [|j] eqn:Hj; [lia |].
    by apply starts_plain_app, starts_plain_take. }
  destruct (andb (-6 <? n) _).
  { eexists _, _. split; [reflexivity | discriminate]. }
  destruct (k =? 1); [by apply starts_plain_app |].
  by apply starts_plain_app, starts_plain_take.
Qed.

Lemma length_zeros n : String.length (zeros n) = n.
Proof. induction n as [|n IH]; simpl; [reflexivity | by rewrite IH]. Qed.

Lemma length_append s t : String.length (s +:+ t) = (String.length s + String.length t)%nat.
Proof. induction s as [|c s IH]; simpl; [reflexivity | by rewrite IH]. Qed.

Lemma zeros_digits_plain j n : starts_plain (zeros j +:+ digits n).
Proof.
  destruct j; simpl; [apply digits_plain |].
  eexists _, _. split; [reflexivity | discriminate].
Qed.

Lemma fixed_digits_plain n f : starts_plain (fixed_digits n f).
Proof.
  unfold fixed_digits. destruct f as [|f]; [apply digits_plain |].
  set (k := String.length (digits n)).
  set (m' := if (k <=? S f)%nat then _ else _).
  assert (Hm : starts_plain m').
  { subst m'. destruct (k <=? S f)%nat; [apply zeros_digits_plain | apply digits_plain]. }
  assert (Hlen : (S f < String.length m')%nat).
  { subst m'. destruct (Nat.leb_spec k (S f)).
    - rewrite length_append, length_zeros. fold k. lia.
    - fold k. lia. }
  destruct (String.length m' - S f)%nat as [|j] eqn:Hj; [lia |].
  by apply starts_plain_app, starts_plain_take.
Qed.

Lemma toFixed_never_dashes x f t t' : toFixed x f +:+ t <> "--" +:+ t'.
Proof.
  assert (Hplain : forall s, starts_plain s ->
            s +:+ t <> "--" +:+ t' /\ ("-" +:+ s) +:+ t <> "--" +:+ t').
  { intros s (c & r & -> & Hc). split; intros H; simpl in H; injection H; auto. }
  destruct x as [s|[]| |s m e]; simpl; try discriminate.
  - apply Hplain, fixed_digits_plain.
  - destruct (fraction m e) as [num den].
    assert (Hbody : starts_plain
      (if 10 ^ 21 * den <=? num then positive_to_string m e
       else fixed_digits (nearest_scaled num den (Z.of_nat f)) f)).
    { destruct (_ <=? _); [apply positive_to_string_plain | apply fixed_digits_plain]. }
    destruct s; simpl; apply Hplain, Hbody.
Qed.

Lemma digit_char_digit d :
  In (digit_char d) ["0";"1";"2";"3";"4";"5";"6";"7";"8";"9"]%char.
Proof.
  unfold digit_char.
  repeat match goal with
         | |- context [match ?x with _ => _ end] => destruct x
         end; simpl; tauto.
Qed.

Lemma digits_aux_all_digits fuel : forall n acc,
  all_digits acc -> all_digits (digits_aux fuel n acc).
Proof.
  induction fuel as [|fuel IH]; intros n acc Hacc; simpl; [exact Hacc|].
  assert (Hacc' : all_digits (String (digit_char (n mod 10)) acc))
    by (split; [apply digit_char_digit | exact Hacc]).
  destruct (n <? 10); [exact Hacc' | by apply IH].
Qed.

Lemma digits_all_digits n : all_digits (digits n).
Proof. by apply digits_aux_all_digits. Qed.

Lemma zeros_all_digits n : all_digits (zeros n).
Proof. induction n; simpl; [done|]. split; [tauto | done]. Qed.

Lemma all_digits_app s t : all_digits s -> all_digits t -> all_digits (s +:+ t).
Proof. induction s as [|c s IH]; simpl; [done|]. intros [Hc Hs] Ht. split; [done | by apply IH]. Qed.

Lemma all_digits_substring s : forall n m, all_digits s -> all_digits (String.substring n m s).
Proof.
  induction s as [|c s IH]; intros n m Hs; destruct n, m; simpl; try done.
  - destruct Hs as [Hc Hs]. split; [done | by apply IH].
  - destruct Hs as [_ Hs]. by apply IH.
  - destruct Hs as [_ Hs]. by apply IH.
Qed.

Lemma length_substring s : forall n m,
  (n + m <= String.length s)%nat -> String.length (String.substring n m s) = m.
Proof.
  induction s as [|c s IH]; intros n m Hlen; destruct n, m; simpl in *; try done; try lia.
  - f_equal. apply (IH 0%nat). lia.
  - apply IH. lia.
  - apply IH. lia.
Qed.

Lemma fixed_digits_two_decimals n :
  exists whole frac,
    fixed_digits n 2 = whole +:+ "." +:+ frac /\
    all_digits whole /\ whole <> "" /\ all_digits frac /\ String.length frac = 2%nat.
Proof.
  unfold fixed_digits.
  set (k := String.length (digits n)).
  set (m' := if (k <=? 2)%nat then _ else _).
  assert (Hm : all_digits m').
  { subst m'. destruct (k <=? 2)%nat; [|apply digits_all_digits].
    apply all_digits_app; [apply zeros_all_digits | apply digits_all_digits]. }
  assert (Hlen : (2 < String.length m')%nat).
  { subst m'. destruct (Nat.leb_spec k 2).
    - rewrite length_append, length_zeros. fold k. lia.
    - fold k. lia. }
  exists (str_take (String.length m' - 2) m'), (str_drop (String.length m' - 2) m').
  split; [reflexivity|]. unfold str_take, str_drop.
  split; [by apply all_digits_substring|]. split.
  - intros Hempty. apply (f_equal String.length) in Hempty.
    rewrite length_substring in Hempty by lia. simpl in Hempty. lia.
  - split; [by apply all_digits_substring|]. rewrite length_substring by lia. lia.
Qed.

Lemma append_assoc (a b c : string) : (a +:+ b) +:+ c = a +:+ b +:+ c.
Proof.
  induction a as [|x a IH]; [reflexivity|].
  change (String x ((a +:+ b) +:+ c) = String x (a +:+ b +:+ c)). by rewrite IH.
Qed.

Example toFixed_examples :
  map (fun x => toFixed x 2)
    [Binary64.of_decimal 15 (-1); Binary64.of_decimal 5 (-3); Binary64.of_decimal 1005 (-3);
     Binary64.of_decimal 125 (-3); Binary64.of_decimal (-1) (-3);
     Binary64.of_decimal 9995 (-1); Binary64.of_decimal 1 21;
     S754_nan; S754_infinity true; S754_zero true]
  = ["1.50"; "0.01"; "1.00"; "0.13"; "-0.00"; "999.50"; "1e+21"; "NaN"; "-Infinity"; "0.00"].
Proof. vm_compute. reflexivity. Qed.

Example to_string_examples :
  map to_string
    [Binary64.of_decimal 1 (-1); Binary64.of_decimal 503 0; Binary64.of_decimal 1 21;
     Binary64.of_decimal 1 (-7); Binary64.of_decimal 123456 (-3);
     Binary64.of_decimal (-25) (-1); Binary64.of_decimal 5 (-324);
     Binary64.of_decimal 17976931348623157 292]
  = ["0.1"; "503"; "1e+21"; "1e-7"; "123.456"; "-2.5"; "5e-324"; "1.7976931348623157e+308"].
Proof. vm_compute. reflexivity. Qed.

(** *** Reading back what [toFixed] writes *)

Example read_examples :
  map read ["1.50"; "-0.00"; "12345.67"; "1e+21"; "Infinity"; ""; ".50"; "1.5"; "1.500"; "--"] =
    [Some (false, 150); Some (true, 0); Some (false, 1234567); None; None; None; None;
     None; None; None].
Proof. vm_compute. reflexivity. Qed.

Lemma digit_of_digit_char d : 0 <= d <= 9 -> digit_of (digit_char d) = Some d.
Proof.
  intros Hd.
  assert (d = 0 \/ d = 1 \/ d = 2 \/ d = 3 \/ d = 4 \/ d = 5 \/ d = 6 \/ d = 7 \/ d = 8 \/ d = 9)
    as Hcases by lia.
  repeat (destruct Hcases as [->|Hcases]; [reflexivity|]). by subst.
Qed.

Lemma read_digits_aux fuel : forall n acc,
  0 <= n < 2 ^ Z.of_nat fuel ->
  read_digits 0 (digits_aux fuel n acc) = read_digits n acc.
Proof.
  induction fuel as [|fuel IH]; intros n acc Hn.
  - simpl in Hn. assert (n = 0) as -> by lia. reflexivity.
  - simpl digits_aux.
    assert (Hmod : 0 <= n mod 10 <= 9) by (pose proof (Z.mod_pos_bound n 10); lia).
    destruct (n <? 10) eqn:Hlt.
    + apply Z.ltb_lt in Hlt. simpl. rewrite digit_of_digit_char by done.
      rewrite Z.mod_small by lia. reflexivity.
    + apply Z.ltb_ge in Hlt. rewrite IH.
      * simpl. rewrite digit_of_digit_char by done.
        rewrite <- Z.div_mod by lia. reflexivity.
      * rewrite Nat2Z.inj_succ, Z.pow_succ_r in Hn by lia.
        split; [apply Z.div_pos; lia|].
        apply Z.div_lt_upper_bound; lia.
Qed.

Lemma read_digits_of_digits n : 0 <= n -> read_digits 0 (digits n) = (n, "").
Proof.
  intros Hn. unfold digits. rewrite read_digits_aux; [reflexivity|].
  split; [done|].
  destruct (Z.eq_dec n 0) as [->|Hne]; [reflexivity|].
  rewrite Nat2Z.inj_succ, Z2Nat.id by apply Z.log2_nonneg.
  apply Z.log2_spec. lia.
Qed.

Lemma all_digits_digit_of c r :
  all_digits (String c r) -> exists d, digit_of c = Some d.
Proof.
  intros [Hc _]. simpl in Hc.
  repeat (destruct Hc as [<-|Hc]; [by eexists|]). done.
Qed.

Lemma read_digits_app a : forall acc t,
  all_digits a -> read_digits acc (a +:+ t) = read_digits (read_digits acc a).1 t.
Proof.
  induction a as [|c a IH]; intros acc t Ha; [reflexivity|].
  destruct (all_digits_digit_of c a Ha) as [d Hd].
  simpl. rewrite Hd. apply IH. by destruct Ha.
Qed.

Lemma read_digits_all a : forall acc, all_digits a -> (read_digits acc a).2 = "".
Proof.
  induction a as [|c a IH]; intros acc Ha; [reflexivity|].
  destruct (all_digits_digit_of c a Ha) as [d Hd].
  simpl. rewrite Hd. apply IH. by destruct Ha.
Qed.

Lemma read_digits_zeros j : forall t, read_digits 0 (zeros j +:+ t) = read_digits 0 t.
Proof. induction j as [|j IH]; intros t; [reflexivity | apply IH]. Qed.

Lemma substring_all s : String.substring 0 (String.length s) s = s.
Proof. induction s as [|c s IH]; [reflexivity|]. simpl. by rewrite IH. Qed.

Lemma substring_split s : forall k,
  (k <= String.length s)%nat ->
  String.substring 0 k s +:+ String.substring k (String.length s - k) s = s.
Proof.
  induction s as [|c s IH]; intros k Hk.
  - destruct k; [reflexivity | simpl in Hk; lia].
  - destruct k as [|k]; simpl.
    + change (String c (String.substring 0 (String.length s) s) = String c s).
      by rewrite substring_all.
    + change (String c (String.substring 0 k s +:+
                          String.substring k (String.length s - k) s) = String c s).
      rewrite IH; [reflexivity|]. simpl in Hk. lia.
Qed.

Lemma read_point_rest acc t : read_digits acc (String "." t) = (acc, String "." t).
Proof. reflexivity. Qed.

(** What [fixed_digits] writes with two decimal places reads back as the
    number it was given. *)
Lemma read_unsigned_fixed_digits n :
  0 <= n -> read_unsigned (fixed_digits n 2) = Some n.
Proof.
  intros Hn. unfold fixed_digits.
  set (k := String.length (digits n)).
  set (m' := if (k <=? 2)%nat then _ else _).
  assert (Hm : all_digits m').
  { subst m'. destruct (k <=? 2)%nat; [|apply digits_all_digits].
    apply all_digits_app; [apply zeros_all_digits | apply digits_all_digits]. }
  assert (Hlen : (2 < String.length m')%nat).
  { subst m'. destruct (Nat.leb_spec k 2).
    - rewrite length_append, length_zeros. fold k. lia.
    - fold k. lia. }
  assert (Hvalue : read_digits 0 m' = (n, "")).
  { subst m'. destruct (k <=? 2)%nat.
    - rewrite read_digits_zeros. by apply read_digits_of_digits.
    - by apply read_digits_of_digits. }
  unfold str_take, str_drop.
  set (whole := String.substring 0 (String.length m' - 2) m').
  set (frac := String.substring (String.length m' - 2)
                 (String.length m' - (String.length m' - 2)) m').
  assert (Hsplit : whole +:+ frac = m') by (apply substring_split; lia).
  assert (Hwhole : all_digits whole) by (by apply all_digits_substring).
  assert (Hfrac : all_digits frac) by (by apply all_digits_substring).
  assert (Hfl : String.length frac = 2%nat).
  { subst frac. rewrite length_substring by lia. lia. }
  assert (Hwl : whole <> "").
  { intros Hempty. apply (f_equal String.length) in Hempty. subst whole.
    rewrite length_substring in Hempty by lia. simpl in Hempty. lia. }
  destruct frac as [|a [|b [|? ?]]]; try discriminate.
  destruct (all_digits_digit_of a _ Hfrac) as [da Hda].
  destruct Hfrac as [_ Hfrac].
  destruct (all_digits_digit_of b _ Hfrac) as [db Hdb].
  rewrite <- Hsplit, read_digits_app in Hvalue by done.
  simpl in Hvalue. rewrite Hda, Hdb in Hvalue. injection Hvalue as Hvalue.
  destruct whole as [|c whole]; [done|].
  destruct (all_digits_digit_of c whole Hwhole) as [dc Hdc].
  unfold read_unsigned.
  change (String c whole +:+ "." +:+ String a (String b "")) with
    (String c (whole +:+ "." +:+ String a (String b ""))).
  cbv beta iota. rewrite Hdc.
  change (String c (whole +:+ "." +:+ String a (String b ""))) with
    (String c whole +:+ String "." (String a (String b ""))).
  rewrite read_digits_app by done. rewrite read_point_rest, Hda, Hdb.
  f_equal. lia.
Qed.

Lemma read_without_sign c r d :
  digit_of c = Some d -> read (String c r) = option_map (pair false) (read_unsigned (String c r)).
Proof.
  intros Hd.
  destruct c as [[] [] [] [] [] [] [] []]; vm_compute in Hd; try discriminate; reflexivity.
Qed.

Lemma read_fixed_digits (sign : bool) n :
  0 <= n -> read ((if sign then "-" else "") +:+ fixed_digits n 2) = Some (sign, n).
Proof.
  intros Hn. pose proof (read_unsigned_fixed_digits n Hn) as Hread. destruct sign.
  - change ("-" +:+ fixed_digits n 2) with (String "-" (fixed_digits n 2)).
    unfold read. cbv beta iota. by rewrite Hread.
  - change ("" +:+ fixed_digits n 2) with (fixed_digits n 2).
    destruct (fixed_digits n 2) as [|c r] eqn:Hfd; [discriminate|].
    assert (Hd : exists d, digit_of c = Some d).
    { unfold read_unsigned in Hread. destruct (digit_of c); [by eexists | discriminate]. }
    destruct Hd as [d Hd]. rewrite (read_without_sign c r d Hd). by rewrite Hread.
Qed.

Lemma fraction_positive m e : 0 < (fraction m e).1 /\ 0 < (fraction m e).2.
Proof.
  unfold fraction. destruct (0 <=? e) eqn:He; simpl.
  - apply Z.leb_le in He. split; [|lia].
    apply Z.mul_pos_pos; [lia | by apply Z.pow_pos_nonneg].
  - apply Z.leb_gt in He. split; [lia|]. apply Z.pow_pos_nonneg; lia.
Qed.

Lemma nearest_scaled_hundredths num den :
  0 < num -> 0 < den ->
  let n := nearest_scaled num den 2 in
  0 <= n /\ 2 * den * n <= 200 * num + den < 2 * den * (n + 1).
Proof.
  intros Hnum Hden. unfold nearest_scaled. cbn zeta.
  change (10 ^ 2) with 100.
  replace (2 * num * 100 + den) with (200 * num + den) by lia.
  split; [apply Z.div_pos; lia|].
  split.
  - apply Z.mul_div_le. lia.
  - replace (2 * den * ((200 * num + den) / (2 * den) + 1))
      with (2 * den * Z.succ ((200 * num + den) / (2 * den))) by lia.
    apply Z.mul_succ_div_gt. lia.
Qed.

(** [toFixed(2)] in fixed notation: the text reads back as the nearest
    number of hundredths, with the sign of the number. *)
Lemma toFixed_in_fixed_range x :
  in_fixed_range x = true ->
  exists n, read (toFixed x 2) = Some (is_negative x, n) /\ nearest_hundredths x n.
Proof.
  destruct x as [s| | |sign m e]; try discriminate; intros Hrange.
  - exists 0. split; [|reflexivity]. vm_compute. reflexivity.
  - unfold in_fixed_range in Hrange. unfold toFixed, nearest_hundredths.
    pose proof (fraction_positive m e) as [Hnum Hden].
    destruct (fraction m e) as [num den]. simpl in Hnum, Hden.
    apply Z.ltb_lt in Hrange.
    rewrite (proj2 (Z.leb_gt _ _)) by lia.
    destruct (nearest_scaled_hundredths num den Hnum Hden) as [Hn Hnearest].
    exists (nearest_scaled num den 2). split; [|exact Hnearest].
    change (Z.of_nat 2) with 2.
    rewrite read_fixed_digits by done. by destruct sign.
Qed.

Lemma toFixed_out_of_fixed_range x f :
  in_fixed_range x = false -> toFixed x f = to_string x.
Proof.
  destruct x as [s|[]| |sign m e]; try discriminate; try reflexivity; intros Hrange.
  unfold in_fixed_range in Hrange. unfold toFixed, to_string.
  destruct (fraction m e) as [num den]. apply Z.ltb_ge in Hrange.
  rewrite (proj2 (Z.leb_le _ _)) by lia. by destruct sign.
Qed.

End NumberText.

(** ** [formatThroughputFromStats] *)

Lemma per_second_text_not_placeholder x : Api.per_second_text x <> "-- req/s".
Proof. apply (toFixed_never_dashes x 2 " req/s" " req/s"). Qed.

Lemma formatThroughputFromStats_never_throws (stats : value) :
  exists text, Api.formatThroughputFromStats stats = Normal text.
Proof.
  unfold Api.formatThroughputFromStats.
  destruct (JS.ToBoolean stats) eqn:Htruthy; simpl; [|by eexists].
  destruct stats as [| |b|x|s|elems|fields]; simpl in *; try discriminate; try by eexists.
  destruct (JS.as_number _); by eexists.
Qed.

(** The text of a number with its unit: in fixed notation it reads back as
    the nearest number of hundredths; outside the range of the fixed
    notation it is the text of [toString]. *)
Lemma per_second_text_reads x :
  (Decimal.in_fixed_range x = true ->
     exists shown n,
       Api.per_second_text x = shown +:+ " req/s" /\
       Decimal.read shown = Some (Decimal.is_negative x, n) /\
       Decimal.nearest_hundredths x n) /\
  (Decimal.in_fixed_range x = false ->
     Api.per_second_text x = JSNumber.to_string x +:+ " req/s").
Proof.
  split; intros Hrange.
  - destruct (toFixed_in_fixed_range x Hrange) as (n & Hread & Hn).
    by exists (JSNumber.toFixed x 2), n.
  - unfold Api.per_second_text. by rewrite toFixed_out_of_fixed_range.
Qed.

(** C4 does not hold: for [requests_per_min] 6e22 the text is
    "1e+21 req/s", and for a [requests_per_min] that JSON.parse reads as
    Infinity (1e999) it is "Infinity req/s"; both are numbers, and neither
    text has two decimal places. *)
Lemma formatThroughputFromStats_not_two_decimals :
  Api.formatThroughputFromStats (VObject {[ "requests_per_min" := Scenario.num 6 22 ]}) =
    Normal "1e+21 req/s" /\
  Api.formatThroughputFromStats (VObject {[ "requests_per_min" := Scenario.num 1 999 ]}) =
    Normal "Infinity req/s" /\
  JS.typeof (Scenario.num 6 22) = "number" /\
  JS.typeof (Scenario.num 1 999) = "number" /\
  Decimal.read "1e+21" = None /\ Decimal.read "Infinity" = None.
Proof. repeat split; vm_compute; reflexivity. Qed.

(** C4, amended: [formatThroughputFromStats] is total: on every value it
    returns a text and never throws.  The text is "-- req/s" exactly when
    the argument is null or undefined or its [requests_per_min] is not a
    number.  Otherwise it is [requests_per_min / 60] followed by " req/s":
    with two decimal places, rounded to the nearest hundredth, when the
    quotient is zero or finite and below 10^21 in magnitude, and in the text
    of [toString] ("NaN", "Infinity", the exponent notation) when it is
    not. *)
Theorem formatThroughputFromStats_total (stats : value) :
  exists text,
    Api.formatThroughputFromStats stats = Normal text /\
    (text = "-- req/s" <->
       JS.is_nullish stats = true \/
       JS.typeof (JS.get_optional stats "requests_per_min") <> "number") /\
    (forall rpm, JS.get_optional stats "requests_per_min" = VNumber rpm ->
       let x := Binary64.div rpm (Binary64.of_Z 60) in
       (Decimal.in_fixed_range x = true ->
          exists shown n,
            text = shown +:+ " req/s" /\
            Decimal.read shown = Some (Decimal.is_negative x, n) /\
            Decimal.nearest_hundredths x n) /\
       (Decimal.in_fixed_range x = false ->
          text = JSNumber.to_string x +:+ " req/s")).
Proof.
  unfold Api.formatThroughputFromStats.
  destruct (JS.ToBoolean stats) eqn:Htruthy; simpl.
  - destruct stats as [| |b|x|s|elems|fields]; simpl in *; try discriminate;
      try (eexists; split; [reflexivity|]; split;
           [split; [intros _; right; discriminate | reflexivity] | discriminate]).
    destruct (fields !! "requests_per_min") as [[| |b|x|s|elems|fields']|] eqn:Hfield; simpl;
      try (eexists; split; [reflexivity|]; split;
           [split; [intros _; right; discriminate | reflexivity] | discriminate]).
    eexists; split; [reflexivity|]. split.
    + split.
      * intros H. by apply per_second_text_not_placeholder in H.
      * intros [H|H]; [discriminate | by destruct H].
    + intros rpm [= ->]. apply per_second_text_reads.
  - exists "-- req/s". split; [reflexivity|]. split.
    + split; [|reflexivity]. intros _.
      destruct stats as [| |b|x|s|elems|fields]; simpl in *;
        try discriminate; try (left; reflexivity); right; discriminate.
    + intros rpm Hrpm.
      destruct stats as [| |b|x|s|elems|fields]; simpl in *; discriminate.
Qed.

(** The throughput text of a finite number below 10^21 in magnitude: an
    optional minus sign, at least one digit, a point, exactly two digits,
    and " req/s". *)
Theorem per_second_text_two_decimals (sign : bool) (m : positive) (e : Z) :
  (JSNumber.fraction m e).1 < 10 ^ 21 * (JSNumber.fraction m e).2 ->
  exists whole frac,
    Api.per_second_text (S754_finite sign m e) =
      (if sign then "-" else "") +:+ whole +:+ "." +:+ frac +:+ " req/s" /\
    JSNumber.all_digits whole /\ whole <> "" /\
    JSNumber.all_digits frac /\ String.length frac = 2%nat.
Proof.
  intros Hsmall. unfold Api.per_second_text, JSNumber.toFixed.
  destruct (JSNumber.fraction m e) as [num den]. simpl in Hsmall.
  rewrite (proj2 (Z.leb_gt _ _)) by lia.
  destruct (fixed_digits_two_decimals (JSNumber.nearest_scaled num den (Z.of_nat 2)))
    as (whole & frac & -> & H).
  exists whole, frac. split; [|exact H].
  by rewrite !append_assoc.
Qed.

Lemma per_second_text_two_decimals_witness :
  exists whole frac,
    Api.per_second_text (S754_finite false 6755399441055744 (-52)) =
      "" +:+ whole +:+ "." +:+ frac +:+ " req/s" /\
    JSNumber.all_digits whole /\ whole <> "" /\
    JSNumber.all_digits frac /\ String.length frac = 2%nat.
Proof.
  apply (per_second_text_two_decimals false 6755399441055744 (-52)).
  vm_compute. reflexivity.
Defined.

Example formatThroughputFromStats_examples :
  map Api.formatThroughputFromStats
    [VUndefined; VNull; VObject ∅; Scenario.statistics_90;
     VObject {[ "requests_per_min" := VString "90" ]};
     VObject {[ "requests_per_min" := VNumber S754_nan ]}]
  = [Normal "-- req/s"; Normal "-- req/s"; Normal "-- req/s"; Normal "1.50 req/s";
     Normal "-- req/s"; Normal "NaN req/s"].
Proof. vm_compute. reflexivity. Qed.

(** ** The API client and the [load] routine *)

Section Dashboard.
Import JS Async Api App Scenario.

Ltac run_async :=
  unfold outcome, await, bind, try_catch, fetch, lift, ret, throw, return_,
    isMounted, set_view, called, with_view in *;
  change (API_BASE +:+ "/health") with "/api/health" in *;
  change (API_BASE +:+ "/model_info") with "/api/model_info" in *;
  change (API_BASE +:+ "/statistics") with "/api/statistics" in *;
  simpl in *.

Lemma mounted_at_earlier w j k : (j <= k)%nat -> mounted_at w k = true -> mounted_at w j = true.
Proof.
  unfold mounted_at. destruct (unmounted_from w) as [u|]; [|done].
  intros Hle Hk. apply bool_decide_eq_true in Hk. apply bool_decide_eq_true. lia.
Qed.

Lemma await_getHealth {V} w (s : state V) :
  await getHealth w s = (outcome getHealth w, called "/api/health" s).
Proof.
  unfold getHealth. run_async.
  destruct (fetch_result w "/api/health") as [res|e]; simpl; [|done].
  destruct (ok res); simpl; [|done]. by destruct (json res).
Qed.

Lemma await_getModelInfo {V} w (s : state V) :
  await getModelInfo w s = (outcome getModelInfo w, called "/api/model_info" s).
Proof.
  unfold getModelInfo. run_async.
  destruct (fetch_result w "/api/model_info") as [res|e]; simpl; [|done].
  destruct (ok res); simpl; [|done]. by destruct (json res).
Qed.

Lemma await_getStatistics {V} w (s : state V) :
  await getStatistics w s = (outcome getStatistics w, called "/api/statistics" s).
Proof.
  unfold getStatistics. run_async.
  destruct (fetch_result w "/api/statistics") as [res|e]; simpl; [|done].
  destruct (ok res); simpl; [|done]. by destruct (json res).
Qed.

Lemma getHealth_settles w : outcome getHealth w <> Returned.
Proof.
  unfold getHealth. run_async.
  destruct (fetch_result w "/api/health") as [res|e]; simpl; [|done].
  destruct (ok res); simpl; [|done]. by destruct (json res).
Qed.

Lemma getModelInfo_settles w : outcome getModelInfo w <> Returned.
Proof.
  unfold getModelInfo. run_async.
  destruct (fetch_result w "/api/model_info") as [res|e]; simpl; [|done].
  destruct (ok res); simpl; [|done]. by destruct (json res).
Qed.

Lemma getStatistics_settles w : outcome getStatistics w <> Returned.
Proof.
  unfold getStatistics. run_async.
  destruct (fetch_result w "/api/statistics") as [res|e]; simpl; [|done].
  destruct (ok res); simpl; [|done]. by destruct (json res).
Qed.

Lemma health_block_run w s :
  health_block w s =
    let s' := called "/api/health" s in
    if mounted_at w (clock s') then
      (Done tt,
       with_view (set_status
         match outcome getHealth w with
         | Done health =>
             if strict_equals_string (get_optional health "status") "ok" then up else down
         | _ => down
         end) s')
    else (Returned, s').
Proof.
  pose proof (getHealth_settles w) as Hsettles.
  unfold health_block, try_catch, bind at 1. rewrite await_getHealth.
  destruct (outcome getHealth w) as [health|e|]; [| |done];
    unfold bind, isMounted, setApiStatus, set_view, return_; simpl;
    by destruct (mounted_at w _).
Qed.

Lemma throughput_from_statistics_run w s :
  throughput_from_statistics w s =
    let s' := called "/api/statistics" s in
    match outcome getStatistics w with
    | Done stats =>
        if mounted_at w (clock s') then
          match formatThroughputFromStats stats with
          | Normal text => (Done tt, with_view (set_throughput text) s')
          | Throw _ => (Done tt, s')
          end
        else (Returned, s')
    | _ => (Done tt, s')
    end.
Proof.
  pose proof (getStatistics_settles w) as Hsettles.
  unfold throughput_from_statistics, try_catch, bind at 1. rewrite await_getStatistics.
  destruct (outcome getStatistics w) as [stats|e|]; [| |done];
    unfold bind, isMounted, setThroughput, set_view, return_, lift, ret, throw; simpl; [|done].
  destruct (mounted_at w _); [|done].
  by destruct (formatThroughputFromStats stats).
Qed.

Lemma throughput_from_statistics_settles w s e s' :
  throughput_from_statistics w s <> (Thrown e, s').
Proof.
  rewrite throughput_from_statistics_run. cbn zeta.
  destruct (outcome getStatistics w) as [stats| |]; [|done|done].
  destruct (mounted_at w (clock (called "/api/statistics" s))); [|done].
  by destruct (formatThroughputFromStats stats).
Qed.

Lemma model_info_block_run w s :
  model_info_block w s =
    let s' := called "/api/model_info" s in
    if mounted_at w (clock s') then
      match outcome getModelInfo w with
      | Done info =>
          match ToString (display_name info) with
          | Normal text =>
              match as_number (get_optional info "requests_per_min") with
              | Some rpm =>
                  (Done tt,
                   with_view (set_throughput (per_second_text (Binary64.div rpm sixty)))
                     (with_view (set_name text) s'))
              | None => throughput_from_statistics w (with_view (set_name text) s')
              end
          | Throw _ => throughput_from_statistics w (with_view (set_name "Unavailable") s')
          end
      | _ => throughput_from_statistics w (with_view (set_name "Unavailable") s')
      end
    else (Returned, s').
Proof.
  pose proof (getModelInfo_settles w) as Hsettles.
  unfold model_info_block, try_catch, bind at 1. rewrite await_getModelInfo.
  cbn zeta. change (clock (called "/api/model_info" s)) with (S (S (clock s))).
  destruct (mounted_at w (S (S (clock s)))) eqn:Hm;
    (destruct (outcome getModelInfo w) as [info|e|]; [| |done]);
    unfold bind, isMounted, setModelName, setThroughput, set_view, return_;
    simpl; rewrite ?Hm; simpl; try reflexivity.
  destruct (ToString (display_name info)) as [text|e]; simpl; rewrite ?Hm; simpl;
    [|reflexivity].
    destruct (as_number _) as [rpm|]; simpl; [reflexivity|].
    match goal with
    | |- context [throughput_from_statistics w ?st] =>
        change (throughput_from_statistics w (with_view (set_name text) (called "/api/model_info" s)))
          with (throughput_from_statistics w st);
        pose proof (throughput_from_statistics_settles w st) as Hstats;
        destruct (throughput_from_statistics w st) as [[[]|e|] s1]
    end; [reflexivity | by destruct (Hstats e s1) | reflexivity].
Qed.

Lemma load_run w s :
  load w s =
    match health_block w s with
    | (Done _, s') => model_info_block w s'
    | r => r
    end.
Proof.
  unfold load, bind. destruct (health_block w s) as [[[]|e|] s']; reflexivity.
Qed.

Lemma strict_equals_string_true v s :
  strict_equals_string v s = true <-> v = VString s.
Proof.
  destruct v; simpl; try (split; [discriminate | congruence]).
  rewrite bool_decide_eq_true. split; congruence.
Qed.

Lemma display_name_cases info :
  display_name info =
    if ToBoolean (get_optional info "model_name") then get_optional info "model_name"
    else if ToBoolean (get_optional info "xgb_version") then get_optional info "xgb_version"
    else VString "Hybrid Model".
Proof.
  unfold display_name, or_else.
  destruct (ToBoolean (get_optional info "model_name")) eqn:Hm; [by rewrite Hm | reflexivity].
Qed.

(** What a run of [load] leaves, block by block. *)
Lemma run_load_unfold w v :
  run_load w v =
    (match health_block w (start v) with
     | (Done _, s') => model_info_block w s'
     | r => r
     end).2.
Proof. unfold run_load. by rewrite load_run. Qed.

Lemma statistics_keep_status w s :
  apiStatus (view (throughput_from_statistics w s).2) = apiStatus (view s) /\
  modelName (view (throughput_from_statistics w s).2) = modelName (view s).
Proof.
  rewrite throughput_from_statistics_run. cbn zeta.
  destruct (outcome getStatistics w) as [stats| |]; [|done|done].
  destruct (mounted_at w _); [|done]. by destruct (formatThroughputFromStats stats).
Qed.

Lemma model_info_block_keeps_status w s :
  apiStatus (view (model_info_block w s).2) = apiStatus (view s).
Proof.
  rewrite model_info_block_run. cbn zeta.
  destruct (mounted_at w _); [|done].
  destruct (outcome getModelInfo w) as [info| |];
    [destruct (ToString (display_name info)) as [text|];
       [destruct (as_number _); [done|] |] | |];
    by rewrite (proj1 (statistics_keep_status _ _)).
Qed.

(** C10 does not hold: [getModelInfo] resolves with a truthy [model_name]
    that [String] cannot convert (an object whose own [toString] is not
    callable), and the name shown is 'Unavailable'; and in a run whose
    component is unmounted before the health check settles, [getHealth]
    resolves with status 'ok' while the status shown stays 'loading'. *)
Lemma unavailable_although_resolved :
  (outcome getModelInfo world_unshowable_name = Done info_unshowable /\
   ToBoolean (get_optional info_unshowable "model_name") = true /\
   modelName (view (run_load world_unshowable_name initial)) = "Unavailable") /\
  (outcome getHealth (world_unmounted_from 1) = Done health_ok /\
   get_optional health_ok "status" = VString "ok" /\
   apiStatus (view (run_load (world_unmounted_from 1) initial)) = loading).
Proof. repeat split; vm_compute; reflexivity. Qed.

(** C10, amended: while the component is mounted, the API status that
    [load] shows is [up] exactly when [getHealth] resolves to a value whose
    [status] is 'ok', and [down] in every other case, a thrown error
    included.  When [getModelInfo] resolves, the name is [model_name] if it
    is truthy, else [xgb_version] if it is truthy, else 'Hybrid Model'; the
    model name shown is the text [String] converts it to, and 'Unavailable'
    when that conversion throws.  It is 'Unavailable' as well when
    [getModelInfo] throws. *)
Theorem load_shows_status_and_name (w : world) (v : View) :
  let shown := view (run_load w v) in
  (mounted_at w after_health = true ->
     (apiStatus shown = up <->
        exists health, outcome getHealth w = Done health /\
                       get_optional health "status" = VString "ok") /\
     (apiStatus shown <> up -> apiStatus shown = down)) /\
  (mounted_at w after_model_info = true ->
     (forall info,
        outcome getModelInfo w = Done info ->
        let name :=
          if ToBoolean (get_optional info "model_name") then get_optional info "model_name"
          else if ToBoolean (get_optional info "xgb_version")
               then get_optional info "xgb_version"
               else VString "Hybrid Model" in
        (forall text, ToString name = Normal text -> modelName shown = text) /\
        (forall e, ToString name = Throw e -> modelName shown = "Unavailable")) /\
     (forall e, outcome getModelInfo w = Thrown e -> modelName shown = "Unavailable")).
Proof.
  cbn zeta. rewrite run_load_unfold, health_block_run. cbn zeta.
  change (clock (called "/api/health" (start v))) with after_health.
  split.
  - intros Hm. rewrite Hm. rewrite model_info_block_keeps_status. simpl.
    destruct (outcome getHealth w) as [health|e|]; simpl.
    + destruct (strict_equals_string _ "ok") eqn:Hok.
      * apply strict_equals_string_true in Hok. split; [|done].
        split; [eauto | done].
      * split; [|done]. split; [done|]. intros (h & [= <-] & Hh).
        apply strict_equals_string_true in Hh. congruence.
    + split; [|done]. split; [done | by intros (h & ? & _)].
    + split; [|done]. split; [done | by intros (h & ? & _)].
  - intros Hm.
    rewrite (mounted_at_earlier w after_health after_model_info)
      by (done || (unfold after_health, after_model_info; lia)).
    rewrite model_info_block_run. cbn zeta.
    change (clock _) with after_model_info. rewrite Hm.
    split.
    + intros info ->. rewrite <- display_name_cases.
      split.
      * intros text ->. destruct (as_number _); [done|].
        by rewrite (proj2 (statistics_keep_status _ _)).
      * intros e ->. by rewrite (proj2 (statistics_keep_status _ _)).
    + intros e ->. by rewrite (proj2 (statistics_keep_status _ _)).
Qed.

Lemma statistics_fetched w s :
  fetched (throughput_from_statistics w s).2 = "/api/statistics" :: fetched s.
Proof.
  rewrite throughput_from_statistics_run. cbn zeta.
  destruct (outcome getStatistics w) as [stats| |]; [|done|done].
  destruct (mounted_at w _); [|done]. by destruct (formatThroughputFromStats stats).
Qed.

Lemma statistics_throughput w s stats :
  outcome getStatistics w = Done stats ->
  mounted_at w (S (S (clock s))) = true ->
  formatThroughputFromStats stats =
    Normal (throughput (view (throughput_from_statistics w s).2)).
Proof.
  intros Hstats Hm. rewrite throughput_from_statistics_run. cbn zeta.
  rewrite Hstats. change (clock (called _ s)) with (S (S (clock s))). rewrite Hm.
  destruct (formatThroughputFromStats_never_throws stats) as (text & ->). reflexivity.
Qed.

Lemma typeof_number_as_number v :
  typeof v <> "number" <-> as_number v = None.
Proof. destruct v; simpl; split; (done || discriminate). Qed.

(** C1 does not hold: the model information carries the number 120 as
    [requests_per_min] and a name that [String] cannot convert; [load] then
    fetches the statistics and shows their "1.50 req/s", not the
    "2.00 req/s" of 120 per minute.  And in a run whose component is
    unmounted while the model information is under way, the number is not
    shown at all. *)
Lemma statistics_consulted_despite_rate :
  (outcome getModelInfo world_unshowable_name = Done info_unshowable /\
   get_optional info_unshowable "requests_per_min" = num 120 0 /\
   typeof (num 120 0) = "number" /\
   fetched (run_load world_unshowable_name initial) =
     ["/api/statistics"; "/api/model_info"; "/api/health"] /\
   throughput (view (run_load world_unshowable_name initial)) = "1.50 req/s" /\
   per_second_text (Binary64.div (Binary64.of_decimal 120 0) sixty) = "2.00 req/s") /\
  (outcome getModelInfo (world_unmounted_from 3) = Done (info_with_rate (num 120 0)) /\
   throughput (view (run_load (world_unmounted_from 3) initial)) = "-- req/s").
Proof. repeat split; vm_compute; reflexivity. Qed.

(** C1, amended: in a run of [load] during which the component stays
    mounted and [getModelInfo] resolves: when [requests_per_min] of the
    response is absent or not a number, or when the name of the model cannot
    be converted to a string, [load] fetches the statistics, and the
    throughput it shows is what [formatThroughputFromStats] makes of the
    statistics response; when [requests_per_min] is a number and the name
    can be converted, the throughput shown is [requests_per_min / 60] in the
    [toFixed(2)] format (in its range: the nearest number of hundredths),
    and the statistics are not fetched. *)
Theorem load_throughput_source (w : world) (v : View) (info : value) :
  outcome getModelInfo w = Done info ->
  mounted_at w after_model_info = true ->
  let final := run_load w v in
  let from_statistics :=
    "/api/statistics" ∈ fetched final /\
    (forall stats,
       outcome getStatistics w = Done stats ->
       mounted_at w after_statistics = true ->
       formatThroughputFromStats stats = Normal (throughput (view final))) in
  (typeof (get_optional info "requests_per_min") <> "number" -> from_statistics) /\
  (forall e, ToString (display_name info) = Throw e -> from_statistics) /\
  (forall rpm text,
     get_optional info "requests_per_min" = VNumber rpm ->
     ToString (display_name info) = Normal text ->
     let x := Binary64.div rpm (Binary64.of_Z 60) in
     throughput (view final) = JSNumber.toFixed x 2 +:+ " req/s" /\
     (Decimal.in_fixed_range x = true ->
        exists shown n,
          throughput (view final) = shown +:+ " req/s" /\
          Decimal.read shown = Some (Decimal.is_negative x, n) /\
          Decimal.nearest_hundredths x n) /\
     "/api/statistics" ∉ fetched final).
Proof.
  intros Hinfo Hm. cbn zeta.
  rewrite run_load_unfold, health_block_run. cbn zeta.
  change (clock (called "/api/health" (start v))) with after_health.
  rewrite (mounted_at_earlier w after_health after_model_info)
    by (done || (unfold after_health, after_model_info; lia)).
  rewrite model_info_block_run. cbn zeta.
  change (clock (called "/api/model_info" _)) with after_model_info.
  rewrite Hm, Hinfo. split; [|split].
  - intros Hrpm. apply typeof_number_as_number in Hrpm. rewrite Hrpm.
    destruct (ToString (display_name info)) as [text|e];
      (split; [rewrite statistics_fetched; apply list_elem_of_here |]);
      intros stats Hstats Hm6; by apply statistics_throughput.
  - intros e ->.
    split; [rewrite statistics_fetched; apply list_elem_of_here |].
    intros stats Hstats Hm6. by apply statistics_throughput.
  - intros rpm text Hrpm ->. rewrite Hrpm. simpl. split; [reflexivity|].
    split; [apply per_second_text_reads|].
    intros Hin. repeat (apply elem_of_cons in Hin as [Hin|Hin]; [discriminate|]).
    by apply elem_of_nil in Hin.
Qed.

Lemma Normal_inj {A} (a b : A) : Normal a = Normal b -> a = b.
Proof. by intros [= ->]. Qed.

(** C10 at three runs: every endpoint answers, every endpoint answers
    503, and the name cannot be converted. *)
Lemma load_shows_status_and_name_witness :
  mounted_at world_without_rate after_model_info = true /\
  apiStatus (view (run_load world_without_rate initial)) = up /\
  modelName (view (run_load world_without_rate initial)) = "xgb-1.7" /\
  modelName (view (run_load world_unavailable initial)) = "Unavailable" /\
  modelName (view (run_load world_unshowable_name initial)) = "Unavailable".
Proof.
  split; [reflexivity|].
  pose proof (load_shows_status_and_name world_without_rate initial) as Hup.
  pose proof (load_shows_status_and_name world_unavailable initial) as Hdown.
  pose proof (load_shows_status_and_name world_unshowable_name initial) as Hname'.
  cbn zeta in Hup, Hdown, Hname'.
  destruct Hup as [Hstatus Hname]. destruct Hdown as [_ Hfail].
  destruct Hname' as [_ Hunshowable].
  destruct (Hstatus eq_refl) as [Hiff _].
  destruct (Hname eq_refl) as [Hshown _].
  destruct (Hfail eq_refl) as [_ Hthrown].
  destruct (Hunshowable eq_refl) as [Hresolved _].
  assert (Hinfo : outcome getModelInfo world_without_rate = Done info_without_rate)
    by (vm_compute; reflexivity).
  assert (Hinfo' : outcome getModelInfo world_unshowable_name = Done info_unshowable)
    by (vm_compute; reflexivity).
  split; [|split; [|split]].
  - apply Hiff. exists health_ok. split; vm_compute; reflexivity.
  - destruct (Hshown info_without_rate Hinfo) as [Htext _].
    apply Htext. vm_compute. reflexivity.
  - apply (Hthrown (Error "ModelInfo 503")). vm_compute. reflexivity.
  - destruct (Hresolved info_unshowable Hinfo') as [_ Hthrow].
    apply (Hthrow TypeError). vm_compute. reflexivity.
Defined.

(** C1 at three runs: the model information carries no rate, a rate of
    120 requests per minute, and a rate with a name that cannot be
    converted. *)
Lemma load_throughput_source_witness :
  throughput (view (run_load world_without_rate initial)) = "1.50 req/s" /\
  throughput (view (run_load (world_with_rate (num 120 0)) initial)) = "2.00 req/s" /\
  throughput (view (run_load world_unshowable_name initial)) = "1.50 req/s".
Proof.
  assert (Hstat : outcome getStatistics world_without_rate = Done statistics_90)
    by (vm_compute; reflexivity).
  assert (Hstat' : outcome getStatistics world_unshowable_name = Done statistics_90)
    by (vm_compute; reflexivity).
  assert (Hfmt : formatThroughputFromStats statistics_90 = Normal "1.50 req/s")
    by (vm_compute; reflexivity).
  split; [|split].
  - assert (Hinfo : outcome getModelInfo world_without_rate = Done info_without_rate)
      by (vm_compute; reflexivity).
    pose proof (load_throughput_source world_without_rate initial info_without_rate
                  Hinfo eq_refl) as [Hfallback _].
    destruct (Hfallback ltac:(discriminate)) as [_ Hstats].
    specialize (Hstats statistics_90 Hstat eq_refl).
    rewrite Hfmt in Hstats. apply Normal_inj in Hstats. symmetry. exact Hstats.
  - assert (Hinfo : outcome getModelInfo (world_with_rate (num 120 0))
                    = Done (info_with_rate (num 120 0)))
      by (vm_compute; reflexivity).
    pose proof (load_throughput_source (world_with_rate (num 120 0)) initial
                  (info_with_rate (num 120 0)) Hinfo eq_refl) as (_ & _ & Hrate).
    assert (Hrpm : get_optional (info_with_rate (num 120 0)) "requests_per_min"
                   = VNumber (Binary64.of_decimal 120 0)) by (vm_compute; reflexivity).
    assert (Hname : ToString (display_name (info_with_rate (num 120 0))) = Normal "Hybrid v2")
      by (vm_compute; reflexivity).
    destruct (Hrate _ _ Hrpm Hname) as [Hshown _].
    rewrite Hshown. vm_compute. reflexivity.
  - assert (Hinfo : outcome getModelInfo world_unshowable_name = Done info_unshowable)
      by (vm_compute; reflexivity).
    pose proof (load_throughput_source world_unshowable_name initial info_unshowable
                  Hinfo eq_refl) as (_ & Hunshowable & _).
    assert (Hname : ToString (display_name info_unshowable) = Throw TypeError)
      by (vm_compute; reflexivity).
    destruct (Hunshowable TypeError Hname) as [_ Hstats].
    specialize (Hstats statistics_90 Hstat' eq_refl).
    rewrite Hfmt in Hstats. apply Normal_inj in Hstats. symmetry. exact Hstats.
Defined.

(** C2 does not hold: two runs that differ in the model-info response only
    ([requests_per_min] 120 and 60) show "2.00 req/s" and "1.00 req/s",
    while the statistics (90 per minute) would give "1.50 req/s" and are
    never fetched. *)
Lemma throughput_follows_model_info :
  same_except "/api/model_info" (world_with_rate (num 120 0)) (world_with_rate (num 60 0)) /\
  outcome getStatistics (world_with_rate (num 120 0)) = Done statistics_90 /\
  formatThroughputFromStats statistics_90 = Normal "1.50 req/s" /\
  throughput (view (run_load (world_with_rate (num 120 0)) initial)) = "2.00 req/s" /\
  throughput (view (run_load (world_with_rate (num 60 0)) initial)) = "1.00 req/s" /\
  fetched (run_load (world_with_rate (num 120 0)) initial) = ["/api/model_info"; "/api/health"].
Proof.
  split.
  { split; [reflexivity|]. intros u Hu. unfold world_with_rate, serve; simpl.
    destruct (bool_decide (u = "/api/health")); [reflexivity|].
    destruct (bool_decide (u = "/api/model_info")) eqn:Hmi; [|reflexivity].
    apply bool_decide_eq_true in Hmi. contradiction. }
  repeat split; vm_compute; reflexivity.
Qed.

(** C2, amended: the model information may carry the throughput.  After a
    run of [load] the throughput shown is the one shown before, or it is
    [requests_per_min / 60] of the model-info response (in the [toFixed(2)]
    format) and the statistics were not fetched, or it is what
    [formatThroughputFromStats] makes of the statistics response; the last
    case arises only when the model information did not resolve, carried
    no numeric [requests_per_min], or had a name that could not be
    shown. *)
Theorem throughput_sources (w : world) (v : View) :
  let final := run_load w v in
  throughput (view final) = throughput v \/
  (exists info rpm,
     outcome getModelInfo w = Done info /\
     get_optional info "requests_per_min" = VNumber rpm /\
     throughput (view final) =
       JSNumber.toFixed (Binary64.div rpm (Binary64.of_Z 60)) 2 +:+ " req/s" /\
     "/api/statistics" ∉ fetched final) \/
  (exists stats,
     outcome getStatistics w = Done stats /\
     formatThroughputFromStats stats = Normal (throughput (view final)) /\
     "/api/statistics" ∈ fetched final /\
     ~ exists info rpm text,
         outcome getModelInfo w = Done info /\
         get_optional info "requests_per_min" = VNumber rpm /\
         ToString (display_name info) = Normal text).
Proof.
  cbn zeta. rewrite run_load_unfold, health_block_run. cbn zeta.
  destruct (mounted_at w _); [|by left].
  rewrite model_info_block_run. cbn zeta.
  destruct (mounted_at w _); [|by left].
  assert (Hstats : forall s : state View,
    throughput (view (throughput_from_statistics w s).2) = throughput (view s) \/
    exists stats, outcome getStatistics w = Done stats /\
      formatThroughputFromStats stats =
        Normal (throughput (view (throughput_from_statistics w s).2)) /\
      "/api/statistics" ∈ fetched (throughput_from_statistics w s).2).
  { intros s. rewrite statistics_fetched, throughput_from_statistics_run. cbn zeta.
    destruct (outcome getStatistics w) as [stats| |]; [|by left|by left].
    destruct (mounted_at w _); [|by left].
    destruct (formatThroughputFromStats stats) as [text|] eqn:Hfmt; [|by left].
    right. exists stats. rewrite Hfmt. repeat split. apply list_elem_of_here. }
  assert (Hfallback : forall s : state View,
    throughput (view s) = throughput v ->
    (~ exists info rpm text,
         outcome getModelInfo w = Done info /\
         get_optional info "requests_per_min" = VNumber rpm /\
         ToString (display_name info) = Normal text) ->
    throughput (view (throughput_from_statistics w s).2) = throughput v \/
    (exists info rpm,
       outcome getModelInfo w = Done info /\
       get_optional info "requests_per_min" = VNumber rpm /\
       throughput (view (throughput_from_statistics w s).2) =
         JSNumber.toFixed (Binary64.div rpm (Binary64.of_Z 60)) 2 +:+ " req/s" /\
       "/api/statistics" ∉ fetched (throughput_from_statistics w s).2) \/
    (exists stats,
       outcome getStatistics w = Done stats /\
       formatThroughputFromStats stats =
         Normal (throughput (view (throughput_from_statistics w s).2)) /\
       "/api/statistics" ∈ fetched (throughput_from_statistics w s).2 /\
       ~ exists info rpm text,
           outcome getModelInfo w = Done info /\
           get_optional info "requests_per_min" = VNumber rpm /\
           ToString (display_name info) = Normal text)).
  { intros s Hs Hno. destruct (Hstats s) as [Hsame|(stats & Hdone & Hfmt & Hin)].
    - left. congruence.
    - right; right. by exists stats. }
  destruct (outcome getModelInfo w) as [info|e|] eqn:Hinfo.
  - destruct (ToString (display_name info)) as [text|e] eqn:Hname.
    + destruct (as_number (get_optional info "requests_per_min")) as [rpm|] eqn:Hrpm.
      * right; left. exists info, rpm.
        destruct (get_optional info "requests_per_min"); try discriminate.
        injection Hrpm as ->. repeat split; try reflexivity. simpl.
        intros Hin. repeat (apply elem_of_cons in Hin as [Hin|Hin]; [discriminate|]).
        by apply elem_of_nil in Hin.
      * apply Hfallback; [reflexivity|].
        intros (info' & rpm' & text' & [= <-] & Hnum & _). by rewrite Hnum in Hrpm.
    + apply Hfallback; [reflexivity|].
      intros (info' & rpm' & text' & [= <-] & _ & Htext). congruence.
  - apply Hfallback; [reflexivity|]. by intros (info' & rpm' & text' & ? & _).
  - apply Hfallback; [reflexivity|]. by intros (info' & rpm' & text' & ? & _).
Qed.

(** C9 does not hold: on a response with status 200 whose body is not
    JSON, [getHealth] throws although the response is ok. *)
Lemma getHealth_throws_on_ok_response :
  exists res,
    fetch_result world_not_json "/api/health" = Normal res /\
    ok res = true /\
    outcome getHealth world_not_json = Thrown SyntaxError.
Proof. eexists. repeat split; vm_compute; reflexivity. Qed.

(** C9, amended: for a response that [fetch] resolved to, each of
    [getHealth], [getModelInfo] and [getStatistics] throws its own
    [Error("<label> <status>")] when the response is not ok, and returns no
    value then; when the response is ok it settles to what [res.json()]
    settles to: the parsed body, or the rejection of [res.json()] when the
    body is not JSON.  A rejection of [fetch] itself is passed on. *)
Theorem api_calls_settle (w : world) (res : Response) :
  (fetch_result w "/api/health" = Normal res ->
     settles_as "Health" res (outcome getHealth w)) /\
  (fetch_result w "/api/model_info" = Normal res ->
     settles_as "ModelInfo" res (outcome getModelInfo w)) /\
  (fetch_result w "/api/statistics" = Normal res ->
     settles_as "Statistics" res (outcome getStatistics w)) /\
  (forall e,
     (fetch_result w "/api/health" = Throw e -> outcome getHealth w = Thrown e) /\
     (fetch_result w "/api/model_info" = Throw e -> outcome getModelInfo w = Thrown e) /\
     (fetch_result w "/api/statistics" = Throw e -> outcome getStatistics w = Thrown e)).
Proof.
  unfold settles_as, getHealth, getModelInfo, getStatistics, outcome,
    await, bind, fetch, lift, ret, throw, status_message.
  change (API_BASE +:+ "/health") with "/api/health".
  change (API_BASE +:+ "/model_info") with "/api/model_info".
  change (API_BASE +:+ "/statistics") with "/api/statistics".
  split; [|split; [|split]].
  4: { intros e. (split; [|split]); intros Hres; by rewrite Hres. }
  all: intros Hres; rewrite Hres; cbv beta iota zeta;
    (split; intros Hok; rewrite Hok; simpl);
    try reflexivity; by destruct (json res).
Qed.

(** C9 at two responses: a 503, and a 200 with a JSON body. *)
Lemma api_calls_settle_witness :
  outcome getHealth world_unavailable = Thrown (Error "Health 503") /\
  outcome getStatistics world_without_rate = Done statistics_90.
Proof.
  split.
  - destruct (api_calls_settle world_unavailable
                {| status := 503; json := Throw SyntaxError |}) as [Hhealth _].
    destruct (Hhealth eq_refl) as [Hbad _]. rewrite (Hbad eq_refl).
    vm_compute. reflexivity.
  - destruct (api_calls_settle world_without_rate
                {| status := 200; json := Normal statistics_90 |}) as (_ & _ & Hstats & _).
    destruct (Hstats eq_refl) as [_ Hgood]. exact (Hgood eq_refl).
Defined.

(** What [getStatistics] returns need not carry the fields of the spec's
    snapshot: a body with [requests_per_min] only is passed on as it is. *)
Lemma statistics_without_alert_rate :
  outcome getStatistics world_sparse_statistics = Done statistics_sparse /\
  ~ has_exactly_fields statistics_sparse
      ["total_requests"; "alert_rate"; "requests_per_min"; "uptime_seconds"].
Proof.
  split; [vm_compute; reflexivity|].
  intros (fields & Hfields & Hdom).
  assert (Hin : "alert_rate" ∈ (dom fields)).
  { rewrite Hdom. apply elem_of_list_to_set. apply list_elem_of_further, list_elem_of_here. }
  apply elem_of_dom in Hin as [x Hx].
  injection Hfields as <-. vm_compute in Hx. discriminate.
Qed.

(** The client checks no field of the statistics: [getStatistics] returns
    every parsed body as it is, its declared type does not list
    [alert_rate], and [formatThroughputFromStats] reads [requests_per_min]
    only.  (The code that builds the snapshot is not among the sources.) *)
Lemma getStatistics_checks_no_field :
  ("alert_rate" ∉ StatisticsResponse_fields) /\
  (forall body : value, outcome getStatistics (world_statistics body) = Done body) /\
  (forall f1 f2 : gmap string value,
     f1 !! "requests_per_min" = f2 !! "requests_per_min" ->
     formatThroughputFromStats (VObject f1) = formatThroughputFromStats (VObject f2)).
Proof.
  split; [|split].
  - unfold StatisticsResponse_fields. intros Hin.
    repeat (apply elem_of_cons in Hin as [Hin|Hin]; [discriminate|]).
    by apply elem_of_nil in Hin.
  - intros body. reflexivity.
  - intros f1 f2 Heq. unfold formatThroughputFromStats. simpl. by rewrite Heq.
Qed.

(** [load] handles every failure itself: it ends normally or by one of its
    [return]s, and never by a throw. *)
Theorem load_never_throws (w : world) (s : state View) (e : exn) (s' : state View) :
  load w s <> (Thrown e, s').
Proof.
  rewrite load_run, health_block_run. cbn zeta.
  destruct (mounted_at w _); [|done].
  rewrite model_info_block_run. cbn zeta.
  destruct (mounted_at w _); [|done].
  destruct (outcome getModelInfo w) as [info| |];
    [destruct (ToString (display_name info)) as [text|];
       [destruct (as_number _); [done|] |] | |];
    apply throughput_from_statistics_settles.
Qed.

(** Once the component is unmounted [load] sets no state: when the cleanup
    has run before the health check settled, the view is left as it was and
    nothing but the health check was fetched. *)
Theorem load_after_unmount (w : world) (v : View) :
  mounted_at w after_health = false ->
  run_load w v = {| view := v; fetched := ["/api/health"]; clock := after_health |}.
Proof.
  intros Hm. rewrite run_load_unfold, health_block_run. cbn zeta.
  change (clock (called "/api/health" (start v))) with after_health.
  by rewrite Hm.
Qed.

Lemma load_after_unmount_witness :
  let w := {| fetch_result := fetch_result world_without_rate; unmounted_from := Some 1%nat |} in
  run_load w initial = {| view := initial; fetched := ["/api/health"]; clock := after_health |}.
Proof.
  apply (load_after_unmount
           {| fetch_result := fetch_result world_without_rate; unmounted_from := Some 1%nat |}
           initial).
  reflexivity.
Defined.

(** The requests of a run, in order: the health check, then the model
    information, then at most once the statistics. *)
Theorem load_requests_in_order (w : world) (v : View) :
  fetched (run_load w v) = ["/api/health"] \/
  fetched (run_load w v) = ["/api/model_info"; "/api/health"] \/
  fetched (run_load w v) = ["/api/statistics"; "/api/model_info"; "/api/health"].
Proof.
  rewrite run_load_unfold, health_block_run. cbn zeta.
  destruct (mounted_at w _); [|by left].
  rewrite model_info_block_run. cbn zeta.
  destruct (mounted_at w _); [|by right; left].
  destruct (outcome getModelInfo w) as [info| |];
    [destruct (ToString (display_name info)) as [text|];
       [destruct (as_number _); [by right; left|] |] | |];
    right; right; by rewrite statistics_fetched.
Qed.

(** Polling again in a world that answers the same leaves the view as the
    first run left it. *)
Theorem load_twice (w : world) (v : View) :
  view (run_load w (view (run_load w v))) = view (run_load w v).
Proof.
  rewrite !run_load_unfold, !health_block_run. cbn zeta.
  change (clock (called "/api/health" (start _))) with after_health.
  destruct (mounted_at w after_health); [|reflexivity].
  rewrite !model_info_block_run. cbn zeta.
  change (clock (called "/api/model_info" _)) with after_model_info.
  destruct (mounted_at w after_model_info); [|by destruct v].
  assert (Hstats : forall s1 s2 : state View,
            clock s1 = clock s2 ->
            apiStatus (view s1) = apiStatus (view s2) ->
            modelName (view s1) = modelName (view s2) ->
            (throughput (view s2) = throughput (view s1) \/
             throughput (view s2) = throughput (view (throughput_from_statistics w s1).2)) ->
            view (throughput_from_statistics w s2).2 =
            view (throughput_from_statistics w s1).2).
  { intros s1 s2 Hc Ha Hn Ht. rewrite !throughput_from_statistics_run. cbn zeta.
    rewrite !throughput_from_statistics_run in Ht. cbn zeta in Ht.
    change (clock (called "/api/statistics" s1)) with (S (S (clock s1))) in *.
    change (clock (called "/api/statistics" s2)) with (S (S (clock s2))).
    rewrite <- Hc.
    destruct s1 as [[a1 n1 t1] f1 c1], s2 as [[a2 n2 t2] f2 c2]. simpl in *. subst.
    destruct (outcome getStatistics w) as [stats| |]; simpl in *;
      [|destruct Ht; by subst|destruct Ht; by subst].
    destruct (mounted_at w _); simpl in *; [|destruct Ht; by subst].
    destruct (formatThroughputFromStats stats); simpl in *; [done|].
    destruct Ht; by subst. }
  destruct (outcome getModelInfo w) as [info| |];
    [destruct (ToString (display_name info)) as [text|];
       [destruct (as_number _); [reflexivity|] |] | |];
    apply Hstats; try reflexivity; right; reflexivity.
Qed.

Example run_loads_polling :
  run_loads [world_unavailable; world_without_rate; world_without_rate; world_unavailable]
            initial =
    {| apiStatus := down; modelName := "Unavailable"; throughput := "1.50 req/s" |}.
Proof. vm_compute. reflexivity. Qed.

Example ToString_examples :
  map ToString
    [VString "v2"; VBool true; num 25 (-1);
     VArray [num 1 0; VNull; VArray [VString "a"; VBool false]];
     VObject ∅; VObject {[ "toString" := VString "x" ]}]
  = [Normal "v2"; Normal "true"; Normal "2.5"; Normal "1,,a,false";
     Normal "[object Object]"; Throw TypeError].
Proof. vm_compute. reflexivity. Qed.

Example load_with_rate :
  run_load (world_with_rate (num 120 0)) initial =
    {| view := {| apiStatus := up; modelName := "Hybrid v2"; throughput := "2.00 req/s" |};
       fetched := ["/api/model_info"; "/api/health"];
       clock := 4 |}.
Proof. vm_compute. reflexivity. Qed.

Example load_without_rate :
  run_load world_without_rate initial =
    {| view := {| apiStatus := up; modelName := "xgb-1.7"; throughput := "1.50 req/s" |};
       fetched := ["/api/statistics"; "/api/model_info"; "/api/health"];
       clock := 6 |}.
Proof. vm_compute. reflexivity. Qed.

Example load_when_unavailable :
  view (run_load world_unavailable initial) =
    {| apiStatus := down; modelName := "Unavailable"; throughput := "-- req/s" |}.
Proof. vm_compute. reflexivity. Qed.

(** A name that cannot be converted sends [load] to its [catch]. *)
Example load_with_unshowable_name :
  let info := VObject {[ "model_name" := VObject {[ "toString" := VNull ]};
                         "requests_per_min" := num 120 0 ]} in
  let w := {| fetch_result :=
                serve (respond 200 health_ok) (respond 200 info) (respond 200 statistics_90);
              unmounted_from := None |} in
  view (run_load w initial) =
    {| apiStatus := up; modelName := "Unavailable"; throughput := "1.50 req/s" |}.
Proof. vm_compute. reflexivity. Qed.

End Dashboard.

(** ** The panels of the page, run by run *)

Section DashboardPage.
Import JS Async Api App Page Scenario.

Import JS Async Api App Page Scenario.

(** What each call settles to, read off the answer of [fetch]. *)
Lemma outcome_getHealth w :
  outcome getHealth w =
    match fetch_result w "/api/health" with
    | Normal res =>
        if ok res then match json res with Normal body => Done body | Throw e => Thrown e end
        else Thrown (Error (status_message "Health" res))
    | Throw e => Thrown e
    end.
Proof.
  unfold getHealth, outcome, await, bind, fetch, lift, ret, throw.
  change (API_BASE +:+ "/health") with "/api/health".
  destruct (fetch_result w "/api/health") as [res|e]; simpl; [|done].
  destruct (ok res); simpl; [|done]. by destruct (json res).
Qed.

Lemma outcome_getModelInfo w :
  outcome getModelInfo w =
    match fetch_result w "/api/model_info" with
    | Normal res =>
        if ok res then match json res with Normal body => Done body | Throw e => Thrown e end
        else Thrown (Error (status_message "ModelInfo" res))
    | Throw e => Thrown e
    end.
Proof.
  unfold getModelInfo, outcome, await, bind, fetch, lift, ret, throw.
  change (API_BASE +:+ "/model_info") with "/api/model_info".
  destruct (fetch_result w "/api/model_info") as [res|e]; simpl; [|done].
  destruct (ok res); simpl; [|done]. by destruct (json res).
Qed.

Lemma outcome_getStatistics w :
  outcome getStatistics w =
    match fetch_result w "/api/statistics" with
    | Normal res =>
        if ok res then match json res with Normal body => Done body | Throw e => Thrown e end
        else Thrown (Error (status_message "Statistics" res))
    | Throw e => Thrown e
    end.
Proof.
  unfold getStatistics, outcome, await, bind, fetch, lift, ret, throw.
  change (API_BASE +:+ "/statistics") with "/api/statistics".
  destruct (fetch_result w "/api/statistics") as [res|e]; simpl; [|done].
  destruct (ok res); simpl; [|done]. by destruct (json res).
Qed.

Lemma mounted_at_same w1 w2 k :
  unmounted_from w1 = unmounted_from w2 -> mounted_at w1 k = mounted_at w2 k.
Proof. unfold mounted_at. by intros ->. Qed.

(** The view that a run of [load] leaves, case by case. *)
Lemma view_run_load w v :
  view (run_load w v) =
    if mounted_at w after_health then
      let a := match outcome getHealth w with
               | Done health =>
                   if strict_equals_string (get_optional health "status") "ok" then up else down
               | _ => down
               end in
      view (model_info_block w (with_view (set_status a) (called "/api/health" (start v)))).2
    else v.
Proof.
  rewrite run_load_unfold, health_block_run. cbn zeta.
  change (clock (called "/api/health" (start v))) with after_health.
  by destruct (mounted_at w after_health).
Qed.

(** The throughput after the fallback to the statistics. *)
Lemma throughput_after_statistics w s :
  throughput (view (throughput_from_statistics w s).2) =
    match outcome getStatistics w with
    | Done stats =>
        if mounted_at w (S (S (clock s))) then
          match formatThroughputFromStats stats with
          | Normal text => text
          | Throw _ => throughput (view s)
          end
        else throughput (view s)
    | _ => throughput (view s)
    end.
Proof.
  rewrite throughput_from_statistics_run. cbn zeta.
  change (clock (called "/api/statistics" s)) with (S (S (clock s))).
  destruct (outcome getStatistics w) as [stats| |]; [|done|done].
  destruct (mounted_at w _); [|done]. by destruct (formatThroughputFromStats stats).
Qed.

(** The three cells after a run of [load], each as a function of what it
    depends on. *)
Lemma status_after_load w v :
  apiStatus (view (run_load w v)) =
    if mounted_at w after_health then
      match outcome getHealth w with
      | Done health =>
          if strict_equals_string (get_optional health "status") "ok" then up else down
      | _ => down
      end
    else apiStatus v.
Proof.
  rewrite view_run_load. destruct (mounted_at w after_health); [|done].
  cbn zeta. by rewrite model_info_block_keeps_status.
Qed.

Lemma name_after_load w v :
  modelName (view (run_load w v)) =
    if mounted_at w after_model_info then
      match outcome getModelInfo w with
      | Done info =>
          match ToString (display_name info) with
          | Normal text => text
          | Throw _ => "Unavailable"
          end
      | _ => "Unavailable"
      end
    else modelName v.
Proof.
  rewrite view_run_load.
  destruct (mounted_at w after_health) eqn:Hh.
  - cbn zeta. rewrite model_info_block_run. cbn zeta.
    change (clock (called "/api/model_info" _)) with after_model_info.
    destruct (mounted_at w after_model_info); [|done].
    destruct (outcome getModelInfo w) as [info| |];
      [destruct (ToString (display_name info)) as [text|];
         [destruct (as_number _); [done|] |] | |];
      by rewrite (proj2 (statistics_keep_status _ _)).
  - destruct (mounted_at w after_model_info) eqn:Hm; [|done].
    apply (mounted_at_earlier w after_health) in Hm; [congruence|].
    unfold after_health, after_model_info. lia.
Qed.

(** Whether a run of [load] takes the throughput from the model
    information: the response resolved, its name could be shown, and its
    [requests_per_min] is a number. *)
Lemma throughput_after_load w v :
  throughput (view (run_load w v)) =
    if mounted_at w after_model_info then
      match outcome getModelInfo w with
      | Done info =>
          match ToString (display_name info), as_number (get_optional info "requests_per_min") with
          | Normal _, Some rpm => per_second_text (Binary64.div rpm sixty)
          | _, _ =>
              match outcome getStatistics w with
              | Done stats =>
                  if mounted_at w after_statistics then
                    match formatThroughputFromStats stats with
                    | Normal text => text
                    | Throw _ => throughput v
                    end
                  else throughput v
              | _ => throughput v
              end
          end
      | _ =>
          match outcome getStatistics w with
          | Done stats =>
              if mounted_at w after_statistics then
                match formatThroughputFromStats stats with
                | Normal text => text
                | Throw _ => throughput v
                end
              else throughput v
          | _ => throughput v
          end
      end
    else throughput v.
Proof.
  rewrite view_run_load.
  destruct (mounted_at w after_health) eqn:Hh.
  - cbn zeta. rewrite model_info_block_run. cbn zeta.
    change (clock (called "/api/model_info" _)) with after_model_info.
    destruct (mounted_at w after_model_info); [|done].
    destruct (outcome getModelInfo w) as [info| |];
      [destruct (ToString (display_name info)) as [text|];
         [destruct (as_number _); [done|] |] | |];
      by rewrite throughput_after_statistics.
  - destruct (mounted_at w after_model_info) eqn:Hm; [|done].
    apply (mounted_at_earlier w after_health) in Hm; [congruence|].
    unfold after_health, after_model_info. lia.
Qed.

Lemma fetched_after_load w v :
  fetched (run_load w v) =
    if mounted_at w after_health then
      if mounted_at w after_model_info then
        match outcome getModelInfo w with
        | Done info =>
            match ToString (display_name info), as_number (get_optional info "requests_per_min") with
            | Normal _, Some rpm => ["/api/model_info"; "/api/health"]
            | _, _ => ["/api/statistics"; "/api/model_info"; "/api/health"]
            end
        | _ => ["/api/statistics"; "/api/model_info"; "/api/health"]
        end
      else ["/api/model_info"; "/api/health"]
    else ["/api/health"].
Proof.
  rewrite run_load_unfold, health_block_run. cbn zeta.
  change (clock (called "/api/health" (start v))) with after_health.
  destruct (mounted_at w after_health); [|done].
  rewrite model_info_block_run. cbn zeta.
  change (clock (called "/api/model_info" _)) with after_model_info.
  destruct (mounted_at w after_model_info); [|done].
  destruct (outcome getModelInfo w) as [info| |];
    [destruct (ToString (display_name info)) as [text|];
       [destruct (as_number _); [done|] |] | |];
    by rewrite statistics_fetched.
Qed.

Import JS Async Api App Page Scenario.

(** The text of the integers that an HTTP status can be. *)
Lemma to_string_status n :
  0 <= n <= 999 -> JSNumber.to_string (Binary64.of_Z n) = JSNumber.digits n.
Proof.
  intros Hn.
  assert (Hall : forallb (fun k : nat =>
                   String.eqb (JSNumber.to_string (Binary64.of_Z (Z.of_nat k)))
                              (JSNumber.digits (Z.of_nat k))) (seq 0 1000) = true)
    by (vm_compute; reflexivity).
  rewrite forallb_forall in Hall.
  specialize (Hall (Z.to_nat n)).
  rewrite Z2Nat.id in Hall by lia.
  apply String.eqb_eq, Hall, in_seq. lia.
Qed.

(** The error that a call throws on a response that is not ok names the
    endpoint and carries the status in plain decimal digits: "Health 503",
    "ModelInfo 404", "Statistics 500". *)
Theorem api_error_messages (w : world) (res : Response) :
  0 <= status res <= 999 ->
  ok res = false ->
  (fetch_result w "/api/health" = Normal res ->
     outcome getHealth w = Thrown (Error ("Health " +:+ JSNumber.digits (status res)))) /\
  (fetch_result w "/api/model_info" = Normal res ->
     outcome getModelInfo w = Thrown (Error ("ModelInfo " +:+ JSNumber.digits (status res)))) /\
  (fetch_result w "/api/statistics" = Normal res ->
     outcome getStatistics w = Thrown (Error ("Statistics " +:+ JSNumber.digits (status res)))).
Proof.
  intros Hstatus Hok.
  rewrite outcome_getHealth, outcome_getModelInfo, outcome_getStatistics.
  (split; [|split]); intros ->; rewrite Hok; unfold status_message;
    by rewrite (to_string_status _ Hstatus).
Qed.

(** A 503 from the model information. *)
Lemma api_error_messages_witness :
  outcome getModelInfo world_unavailable = Thrown (Error "ModelInfo 503").
Proof.
  destruct (api_error_messages world_unavailable
              {| status := 503; json := Throw SyntaxError |}) as (_ & Hinfo & _).
  - simpl. lia.
  - reflexivity.
  - exact (Hinfo eq_refl).
Defined.

(** The two ways to the throughput agree: a run that takes
    [requests_per_min] from the model information and a run that takes the
    same number from the statistics show the same text. *)
Theorem throughput_same_from_either_source
    (w1 w2 : world) (v1 v2 : View) (info1 info2 stats : value) (rpm : number) (text : string) :
  mounted_at w1 after_model_info = true ->
  outcome getModelInfo w1 = Done info1 ->
  ToString (display_name info1) = Normal text ->
  get_optional info1 "requests_per_min" = VNumber rpm ->
  mounted_at w2 after_statistics = true ->
  outcome getModelInfo w2 = Done info2 ->
  typeof (get_optional info2 "requests_per_min") <> "number" ->
  outcome getStatistics w2 = Done stats ->
  get_optional stats "requests_per_min" = VNumber rpm ->
  throughput (view (run_load w1 v1)) = throughput (view (run_load w2 v2)).
Proof.
  intros Hm1 Hinfo1 Hname1 Hrpm1 Hm2 Hinfo2 Hrpm2 Hstats Hrpm.
  rewrite !throughput_after_load.
  rewrite Hm1, Hinfo1, Hname1, Hrpm1. simpl.
  rewrite (mounted_at_earlier w2 after_model_info after_statistics)
    by (done || (unfold after_model_info, after_statistics; lia)).
  rewrite Hinfo2, Hstats, Hm2.
  apply typeof_number_as_number in Hrpm2. rewrite Hrpm2.
  assert (Hfmt : formatThroughputFromStats stats =
                 Normal (per_second_text (Binary64.div rpm sixty))).
  { destruct stats as [| |b|x|s|elems|fields]; try discriminate.
    unfold formatThroughputFromStats. simpl in *. by rewrite Hrpm. }
  rewrite Hfmt. by destruct (ToString (display_name info2)).
Qed.

(** 90 requests per minute, from the model information and from the
    statistics. *)
Lemma throughput_same_from_either_source_witness :
  throughput (view (run_load (world_with_rate (num 90 0)) initial)) =
  throughput (view (run_load world_without_rate initial)).
Proof.
  assert (H1 : outcome getModelInfo (world_with_rate (num 90 0)) =
               Done (info_with_rate (num 90 0))) by (vm_compute; reflexivity).
  assert (H2 : ToString (display_name (info_with_rate (num 90 0))) = Normal "Hybrid v2")
    by (vm_compute; reflexivity).
  assert (H3 : get_optional (info_with_rate (num 90 0)) "requests_per_min" =
               VNumber (Binary64.of_decimal 90 0)) by (vm_compute; reflexivity).
  assert (H4 : outcome getModelInfo world_without_rate = Done info_without_rate)
    by (vm_compute; reflexivity).
  assert (H5 : typeof (get_optional info_without_rate "requests_per_min") <> "number")
    by (vm_compute; discriminate).
  assert (H6 : outcome getStatistics world_without_rate = Done statistics_90)
    by (vm_compute; reflexivity).
  assert (H7 : get_optional statistics_90 "requests_per_min" =
               VNumber (Binary64.of_decimal 90 0)) by (vm_compute; reflexivity).
  exact (throughput_same_from_either_source
           (world_with_rate (num 90 0)) world_without_rate initial initial
           _ _ _ _ _ eq_refl H1 H2 H3 eq_refl H4 H5 H6 H7).
Defined.

(** Each panel depends on its own endpoints only.  In two worlds in which
    the component is unmounted at the same moment (or never), the status
    shown is the same when the health endpoint answers the same, the model
    name is the same when the model information answers the same, and the
    throughput is the same when the model information and the statistics
    answer the same. *)
Theorem load_panels_independent (w1 w2 : world) (v : View) :
  unmounted_from w1 = unmounted_from w2 ->
  (fetch_result w1 "/api/health" = fetch_result w2 "/api/health" ->
     apiStatus (view (run_load w1 v)) = apiStatus (view (run_load w2 v))) /\
  (fetch_result w1 "/api/model_info" = fetch_result w2 "/api/model_info" ->
     modelName (view (run_load w1 v)) = modelName (view (run_load w2 v))) /\
  (fetch_result w1 "/api/model_info" = fetch_result w2 "/api/model_info" ->
   fetch_result w1 "/api/statistics" = fetch_result w2 "/api/statistics" ->
     throughput (view (run_load w1 v)) = throughput (view (run_load w2 v))).
Proof.
  intros Hu. split; [|split].
  - intros Hh. rewrite !status_after_load, !outcome_getHealth, Hh.
    by rewrite (mounted_at_same w1 w2).
  - intros Hi. rewrite !name_after_load, !outcome_getModelInfo, Hi.
    by rewrite (mounted_at_same w1 w2).
  - intros Hi Hs.
    rewrite !throughput_after_load, !outcome_getModelInfo, !outcome_getStatistics, Hi, Hs.
    by rewrite !(mounted_at_same w1 w2).
Qed.

(** The status does not depend on the model information, nor the model
    name on the statistics. *)
Lemma load_panels_independent_witness :
  apiStatus (view (run_load world_without_rate initial)) =
    apiStatus (view (run_load (world_with_rate (num 120 0)) initial)) /\
  modelName (view (run_load world_without_rate initial)) =
    modelName (view (run_load world_sparse_statistics initial)).
Proof.
  split.
  - destruct (load_panels_independent world_without_rate (world_with_rate (num 120 0))
                initial eq_refl) as [Hstatus _].
    exact (Hstatus eq_refl).
  - destruct (load_panels_independent world_without_rate world_sparse_statistics
                initial eq_refl) as (_ & Hname & _).
    exact (Hname eq_refl).
Defined.

(** When the component is unmounted after the health check has settled
    and before the model information has, the run leaves the model name and
    the throughput as they were; the model information was requested, the
    statistics were not. *)
Theorem load_unmount_during_model_info (w : world) (v : View) :
  mounted_at w after_health = true ->
  mounted_at w after_model_info = false ->
  modelName (view (run_load w v)) = modelName v /\
  throughput (view (run_load w v)) = throughput v /\
  fetched (run_load w v) = ["/api/model_info"; "/api/health"].
Proof.
  intros Hh Hm.
  rewrite name_after_load, throughput_after_load, fetched_after_load.
  by rewrite Hh, Hm.
Qed.

(** Unmounted while the third [await] is pending. *)
Lemma load_unmount_during_model_info_witness :
  let w := {| fetch_result := fetch_result world_without_rate; unmounted_from := Some 3%nat |} in
  modelName (view (run_load w initial)) = "Loading..." /\
  throughput (view (run_load w initial)) = "-- req/s" /\
  fetched (run_load w initial) = ["/api/model_info"; "/api/health"].
Proof.
  exact (load_unmount_during_model_info
           {| fetch_result := fetch_result world_without_rate; unmounted_from := Some 3%nat |}
           initial eq_refl eq_refl).
Defined.

(** When the component is unmounted while the statistics are under way,
    their answer is dropped: the throughput stays as it was. *)
Theorem load_unmount_during_statistics (w : world) (v : View) :
  mounted_at w after_model_info = true ->
  mounted_at w after_statistics = false ->
  "/api/statistics" ∈ fetched (run_load w v) ->
  throughput (view (run_load w v)) = throughput v.
Proof.
  intros Hm Hs. rewrite fetched_after_load, throughput_after_load.
  rewrite (mounted_at_earlier w after_health after_model_info)
    by (done || (unfold after_health, after_model_info; lia)).
  rewrite Hm, Hs.
  assert (Hno : "/api/statistics" ∉ ["/api/model_info"; "/api/health"]).
  { intros Hin. repeat (apply elem_of_cons in Hin as [Hin|Hin]; [discriminate|]).
    by apply elem_of_nil in Hin. }
  destruct (outcome getModelInfo w) as [info| |];
    [destruct (ToString (display_name info)) as [text|];
       [destruct (as_number _); [by intros ?%Hno|] |] | |];
    intros _; by destruct (outcome getStatistics w).
Qed.

(** Unmounted while the fifth [await] is pending. *)
Lemma load_unmount_during_statistics_witness :
  let w := {| fetch_result := fetch_result world_without_rate; unmounted_from := Some 5%nat |} in
  throughput (view (run_load w initial)) = "-- req/s".
Proof.
  apply (load_unmount_during_statistics
           {| fetch_result := fetch_result world_without_rate; unmounted_from := Some 5%nat |}
           initial eq_refl eq_refl).
  vm_compute. apply list_elem_of_here.
Defined.

(** The throughput is not reset: when the model information supplies no
    numeric [requests_per_min] and the statistics do not resolve, a run
    leaves the throughput that was shown before, also while it reports the
    API as down. *)
Theorem load_keeps_stale_throughput (w : world) (v : View) :
  (forall info, outcome getModelInfo w = Done info ->
     typeof (get_optional info "requests_per_min") <> "number") ->
  (forall stats, outcome getStatistics w <> Done stats) ->
  throughput (view (run_load w v)) = throughput v.
Proof.
  intros Hinfo Hstats. rewrite throughput_after_load.
  destruct (mounted_at w after_model_info); [|done].
  destruct (outcome getStatistics w) as [stats| |] eqn:Hs;
    [by destruct (Hstats stats) | |].
  all: destruct (outcome getModelInfo w) as [info| |]; [|done|done].
  all: specialize (Hinfo info eq_refl); apply typeof_number_as_number in Hinfo.
  all: rewrite Hinfo; by destruct (ToString (display_name info)).
Qed.

(** The back end goes down after a run that showed "1.50 req/s". *)
Lemma load_keeps_stale_throughput_witness :
  let before := {| apiStatus := up; modelName := "xgb-1.7"; throughput := "1.50 req/s" |} in
  throughput (view (run_load world_unavailable before)) = "1.50 req/s".
Proof.
  assert (Hinfo : outcome getModelInfo world_unavailable = Thrown (Error "ModelInfo 503"))
    by (vm_compute; reflexivity).
  assert (Hstats : outcome getStatistics world_unavailable = Thrown (Error "Statistics 503"))
    by (vm_compute; reflexivity).
  apply (load_keeps_stale_throughput world_unavailable
           {| apiStatus := up; modelName := "xgb-1.7"; throughput := "1.50 req/s" |}).
  - intros info Hi. rewrite Hinfo in Hi. discriminate.
  - intros stats Hs. rewrite Hstats in Hs. discriminate.
Defined.

Import JS Async Api App Page Scenario.

(** The declared response types *)

Lemma optional_string_cases v :
  optional_string v = true -> v = VUndefined \/ exists s, v = VString s.
Proof. destruct v; try discriminate; eauto. Qed.

Lemma optional_number_cases v :
  optional_number v = true -> v = VUndefined \/ exists x, v = VNumber x.
Proof. destruct v; try discriminate; eauto. Qed.

(** The name of a response of the declared type. *)
Lemma display_name_declared info :
  optional_string (get_optional info "model_name") = true ->
  optional_string (get_optional info "xgb_version") = true ->
  exists name,
    ToString (display_name info) = Normal name /\
    name <> "" /\
    (get_optional info "model_name" = VString name \/
     get_optional info "model_name" ∈ [VUndefined; VString ""] /\
     (get_optional info "xgb_version" = VString name \/
      get_optional info "xgb_version" ∈ [VUndefined; VString ""] /\
      name = "Hybrid Model")).
Proof.
  intros Hm Hx. rewrite display_name_cases.
  apply optional_string_cases in Hm as [Hm|[m Hm]];
    apply optional_string_cases in Hx as [Hx|[x Hx]]; rewrite Hm, Hx; simpl.
  - exists "Hybrid Model". repeat split; [done|]. right.
    split; [apply list_elem_of_here|]. right. split; [apply list_elem_of_here | done].
  - destruct (bool_decide (x = "")) eqn:Hex; simpl.
    + apply bool_decide_eq_true in Hex as ->.
      exists "Hybrid Model". repeat split; [done|]. right.
      split; [apply list_elem_of_here|]. right.
      split; [apply list_elem_of_further, list_elem_of_here | done].
    + apply bool_decide_eq_false in Hex.
      exists x. repeat split; [done|]. right. split; [apply list_elem_of_here|]. by left.
  - destruct (bool_decide (m = "")) eqn:Hem; simpl.
    + apply bool_decide_eq_true in Hem as ->.
      exists "Hybrid Model". repeat split; [done|]. right.
      split; [apply list_elem_of_further, list_elem_of_here|]. right.
      split; [apply list_elem_of_here | done].
    + apply bool_decide_eq_false in Hem. exists m. repeat split; [done|]. by left.
  - destruct (bool_decide (m = "")) eqn:Hem; simpl.
    + apply bool_decide_eq_true in Hem as ->.
      destruct (bool_decide (x = "")) eqn:Hex; simpl.
      * apply bool_decide_eq_true in Hex as ->.
        exists "Hybrid Model". repeat split; [done|]. right.
        split; [apply list_elem_of_further, list_elem_of_here|]. right.
        split; [apply list_elem_of_further, list_elem_of_here | done].
      * apply bool_decide_eq_false in Hex.
        exists x. repeat split; [done|]. right.
        split; [apply list_elem_of_further, list_elem_of_here|]. by left.
    + apply bool_decide_eq_false in Hem. exists m. repeat split; [done|]. by left.
Qed.

Lemma is_ModelInfoResponse_fields info :
  is_ModelInfoResponse info = true ->
  optional_string (get_optional info "model_name") = true /\
  optional_string (get_optional info "xgb_version") = true /\
  optional_number (get_optional info "requests_per_min") = true.
Proof.
  destruct info; try discriminate. unfold is_ModelInfoResponse.
  intros H. apply andb_prop in H as [H H3]. apply andb_prop in H as [H1 H2]. done.
Qed.

(** The model name shown for a response of the declared type is never
    empty: an absent or empty [model_name] gives way to [xgb_version], and an
    absent or empty [xgb_version] to 'Hybrid Model'. *)
Theorem name_of_declared_response (w : world) (v : View) (info : value) :
  mounted_at w after_model_info = true ->
  outcome getModelInfo w = Done info ->
  is_ModelInfoResponse info = true ->
  let name := modelName (view (run_load w v)) in
  name <> "" /\
  (get_optional info "model_name" = VString name \/
   get_optional info "model_name" ∈ [VUndefined; VString ""] /\
   (get_optional info "xgb_version" = VString name \/
    get_optional info "xgb_version" ∈ [VUndefined; VString ""] /\
    name = "Hybrid Model")).
Proof.
  intros Hm Hinfo Htyped. cbn zeta.
  rewrite name_after_load, Hm, Hinfo.
  apply is_ModelInfoResponse_fields in Htyped as (Hname & Hversion & _).
  destruct (display_name_declared info Hname Hversion) as (name & -> & Hne & Hfrom).
  by split.
Qed.

(** A response with a version only. *)
Lemma name_of_declared_response_witness :
  modelName (view (run_load world_without_rate initial)) <> "" /\
  get_optional info_without_rate "xgb_version" =
    VString (modelName (view (run_load world_without_rate initial))).
Proof.
  assert (Hinfo : outcome getModelInfo world_without_rate = Done info_without_rate)
    by (vm_compute; reflexivity).
  assert (Htyped : is_ModelInfoResponse info_without_rate = true)
    by (vm_compute; reflexivity).
  destruct (name_of_declared_response world_without_rate initial info_without_rate
              eq_refl Hinfo Htyped) as [Hne Hfrom].
  split; [exact Hne|].
  destruct Hfrom as [Hfrom|[_ [Hfrom|[Hfrom _]]]].
  - vm_compute in Hfrom. discriminate.
  - exact Hfrom.
  - vm_compute in Hfrom.
    repeat (apply elem_of_cons in Hfrom as [Hfrom|Hfrom]; [discriminate|]).
    by apply elem_of_nil in Hfrom.
Defined.

(** For responses of the declared types the placeholder is shown exactly
    when neither the model information nor the statistics carry
    [requests_per_min]. *)
Theorem placeholder_iff_no_rate (w : world) (v : View) (info stats : value) :
  mounted_at w after_statistics = true ->
  outcome getModelInfo w = Done info ->
  is_ModelInfoResponse info = true ->
  outcome getStatistics w = Done stats ->
  is_StatisticsResponse stats = true ->
  (throughput (view (run_load w v)) = "-- req/s" <->
   get_optional info "requests_per_min" = VUndefined /\
   get_optional stats "requests_per_min" = VUndefined).
Proof.
  intros Hm Hinfo Htyped Hstats Hstyped.
  rewrite throughput_after_load.
  rewrite (mounted_at_earlier w after_model_info after_statistics)
    by (done || (unfold after_model_info, after_statistics; lia)).
  rewrite Hinfo, Hstats, Hm.
  apply is_ModelInfoResponse_fields in Htyped as (Hname & Hversion & Hrate).
  destruct (display_name_declared info Hname Hversion) as (name & -> & _).
  apply optional_number_cases in Hrate as [Hrate|[rpm Hrate]]; rewrite Hrate; simpl.
  - destruct stats as [| |b|x|s|elems|fields]; try discriminate.
    unfold is_StatisticsResponse in Hstyped.
    apply andb_prop in Hstyped as [Hstyped _]. apply andb_prop in Hstyped as [_ Hsrate].
    unfold formatThroughputFromStats. simpl in *.
    apply optional_number_cases in Hsrate as [Hsrate|[rpm Hsrate]]; rewrite Hsrate; simpl.
    + done.
    + split; [|by intros [_ ?]]. intros H. by apply per_second_text_not_placeholder in H.
  - split; [|by intros [? _]]. intros H. by apply per_second_text_not_placeholder in H.
Qed.

(** Neither response carries a rate. *)
Lemma placeholder_iff_no_rate_witness :
  throughput (view (run_load (world_statistics (VObject ∅)) initial)) = "-- req/s".
Proof.
  assert (Hinfo : outcome getModelInfo (world_statistics (VObject ∅)) = Done info_without_rate)
    by (vm_compute; reflexivity).
  assert (Htyped : is_ModelInfoResponse info_without_rate = true)
    by (vm_compute; reflexivity).
  assert (Hstats : outcome getStatistics (world_statistics (VObject ∅)) = Done (VObject ∅))
    by (vm_compute; reflexivity).
  assert (Hstyped : is_StatisticsResponse (VObject ∅) = true)
    by (vm_compute; reflexivity).
  apply (placeholder_iff_no_rate (world_statistics (VObject ∅)) initial
           info_without_rate (VObject ∅) eq_refl Hinfo Htyped Hstats Hstyped).
  split; vm_compute; reflexivity.
Defined.

(** What the status panel shows after a run: 'Online' in the emerald
    class exactly when the health endpoint answered with a status from 200
    to 299 and a JSON body whose [status] is 'ok'; 'Offline' in the rose
    class otherwise. *)
Theorem page_status_after_load (w : world) (v : View) :
  mounted_at w after_health = true ->
  let page := render (view (run_load w v)) in
  let healthy :=
    exists res body,
      fetch_result w "/api/health" = Normal res /\ ok res = true /\
      json res = Normal body /\ get_optional body "status" = VString "ok" in
  (healthy ->
     status_label page = "Online" /\
     status_className page = "mt-3 text-2xl font-semibold text-emerald-400") /\
  (~ healthy ->
     status_label page = "Offline" /\
     status_className page = "mt-3 text-2xl font-semibold text-rose-400").
Proof.
  intros Hm. cbn zeta. unfold render. simpl.
  rewrite status_after_load, Hm, outcome_getHealth.
  split.
  - intros (res & body & -> & -> & -> & Hok).
    apply strict_equals_string_true in Hok. by rewrite Hok.
  - intros Hno.
    destruct (fetch_result w "/api/health") as [res|e]; [|done].
    destruct (ok res) eqn:Hok; [|done].
    destruct (json res) as [body|e] eqn:Hbody; [|done].
    destruct (strict_equals_string (get_optional body "status") "ok") eqn:Hs; [|done].
    apply strict_equals_string_true in Hs. destruct Hno. by exists res, body.
Qed.

(** A healthy back end, and one that answers with a page that is not
    JSON. *)
Lemma page_status_after_load_witness :
  status_label (render (view (run_load world_without_rate initial))) = "Online" /\
  status_label (render (view (run_load world_not_json initial))) = "Offline".
Proof.
  split.
  - destruct (page_status_after_load world_without_rate initial eq_refl) as [Hon _].
    apply Hon. exists {| status := 200; json := Normal health_ok |}, health_ok.
    repeat split; vm_compute; reflexivity.
  - destruct (page_status_after_load world_not_json initial eq_refl) as [_ Hoff].
    apply Hoff. intros (res & body & Hres & _ & Hbody & _).
    vm_compute in Hres. injection Hres as <-. discriminate.
Defined.

(** A run that stays mounted to its end and whose statistics resolve
    leaves a view that does not depend on the view before: the page then
    shows the latest answers only. *)
Theorem load_forgets_history (w : world) (v1 v2 : View) :
  mounted_at w after_statistics = true ->
  (exists stats, outcome getStatistics w = Done stats) ->
  view (run_load w v1) = view (run_load w v2).
Proof.
  intros Hm [stats Hstats].
  assert (Hm4 : mounted_at w after_model_info = true).
  { apply (mounted_at_earlier w after_model_info after_statistics); [|done].
    unfold after_model_info, after_statistics. lia. }
  assert (Hm2 : mounted_at w after_health = true).
  { apply (mounted_at_earlier w after_health after_statistics); [|done].
    unfold after_health, after_statistics. lia. }
  assert (Heq : forall a b : View,
            apiStatus a = apiStatus b -> modelName a = modelName b ->
            throughput a = throughput b -> a = b).
  { intros [] []; simpl; by intros -> -> ->. }
  apply Heq.
  - rewrite !status_after_load. by rewrite Hm2.
  - rewrite !name_after_load. by rewrite Hm4.
  - rewrite !throughput_after_load. rewrite Hm4, Hm, Hstats.
    destruct (formatThroughputFromStats_never_throws stats) as [text ->].
    reflexivity.
Qed.

(** From the initial view and from the view of a failed run. *)
Lemma load_forgets_history_witness :
  view (run_load world_without_rate initial) =
  view (run_load world_without_rate
          {| apiStatus := down; modelName := "Unavailable"; throughput := "9.00 req/s" |}).
Proof.
  apply (load_forgets_history world_without_rate); [reflexivity|].
  exists statistics_90. vm_compute. reflexivity.
Defined.

(** The statistics are requested exactly when the run is still mounted
    once the model information has settled and the model information
    did not supply the throughput. *)
Theorem statistics_requested_iff (w : world) (v : View) :
  "/api/statistics" ∈ fetched (run_load w v) <->
  mounted_at w after_model_info = true /\
  ~ (exists info rpm text,
       outcome getModelInfo w = Done info /\
       get_optional info "requests_per_min" = VNumber rpm /\
       ToString (display_name info) = Normal text).
Proof.
  assert (Hno : forall l, l = ["/api/health"] \/ l = ["/api/model_info"; "/api/health"] ->
                  "/api/statistics" ∉ l).
  { intros l [-> | ->] Hin;
      repeat (apply elem_of_cons in Hin as [Hin|Hin]; [discriminate|]);
      by apply elem_of_nil in Hin. }
  rewrite fetched_after_load.
  destruct (mounted_at w after_health) eqn:Hh.
  2: { split; [intros Hin; by apply Hno in Hin; auto|].
       intros [Hm _]. apply (mounted_at_earlier w after_health) in Hm; [congruence|].
       unfold after_health, after_model_info. lia. }
  destruct (mounted_at w after_model_info);
    [|split; [intros Hin; by apply Hno in Hin; auto | by intros [? _]]].
  destruct (outcome getModelInfo w) as [info|e|] eqn:Hinfo.
  - destruct (ToString (display_name info)) as [text|e] eqn:Hname.
    + destruct (get_optional info "requests_per_min") as [| |b|rpm|s|elems|fields] eqn:Hrpm;
        simpl;
        try (split; [intros _; split; [done|];
                     by intros (i & r & t & [= <-] & Hr & _); rewrite Hrpm in Hr
                    | intros _; apply list_elem_of_here]).
      split; [intros Hin; by apply Hno in Hin; auto|].
      intros [_ H]. destruct H. by exists info, rpm, text.
    + split; [|intros _; apply list_elem_of_here]. intros _. split; [done|].
      intros (i & r & t & [= <-] & _ & Ht). congruence.
  - split; [|intros _; apply list_elem_of_here]. intros _. split; [done|].
    by intros (i & r & t & ? & _).
  - split; [|intros _; apply list_elem_of_here]. intros _. split; [done|].
    by intros (i & r & t & ? & _).
Qed.

(** The status is [loading] after polling exactly when it was before and
    no run got past its health check. *)
Lemma status_after_polling ws : forall v,
  apiStatus (run_loads ws v) = loading <->
  apiStatus v = loading /\ Forall (fun w => mounted_at w after_health = false) ws.
Proof.
  induction ws as [|w ws IH]; intros v.
  - simpl. split; [by intros ?; split | by intros [? _]].
  - change (run_loads (w :: ws) v) with (run_loads ws (view (run_load w v))).
    rewrite IH, status_after_load, Forall_cons.
    destruct (mounted_at w after_health) eqn:Hm.
    + split; [|by intros [_ [? _]]]. intros [H _].
      destruct (outcome getHealth w) as [health| |]; try discriminate.
      by destruct (strict_equals_string _ _).
    + tauto.
Qed.

(** The page shows 'Checking...' exactly as long as no run of [load] has
    got past its health check while the component was mounted. *)
Theorem checking_until_first_health (ws : list world) :
  status_label (poll ws) = "Checking..." <->
  Forall (fun w => mounted_at w after_health = false) ws.
Proof.
  unfold poll, render. simpl.
  pose proof (status_after_polling ws initial) as H. simpl in H.
  destruct (apiStatus (run_loads ws initial)); simpl.
  - split; [intros _; by apply H | done].
  - split; [done|]. intros HF. by pose proof (proj2 H (conj eq_refl HF)).
  - split; [done|]. intros HF. by pose proof (proj2 H (conj eq_refl HF)).
Qed.

(** Every text of [formatThroughputFromStats] ends with the unit. *)
Lemma formatThroughputFromStats_unit stats text :
  formatThroughputFromStats stats = Normal text -> exists value, text = value +:+ " req/s".
Proof.
  unfold formatThroughputFromStats.
  destruct (negb (ToBoolean stats)); [intros [= <-]; by exists "--"|].
  destruct (get stats "requests_per_min") as [field|]; [|done].
  destruct (as_number field) as [rpm|]; intros [= <-]; [|by exists "--"].
  by eexists.
Qed.

Lemma throughput_unit_after_load w v :
  (exists value, throughput v = value +:+ " req/s") ->
  exists value, throughput (view (run_load w v)) = value +:+ " req/s".
Proof.
  intros Hv. rewrite throughput_after_load.
  assert (Hstats : exists value,
            match outcome getStatistics w with
            | Done stats =>
                if mounted_at w after_statistics then
                  match formatThroughputFromStats stats with
                  | Normal text => text
                  | Throw _ => throughput v
                  end
                else throughput v
            | _ => throughput v
            end = value +:+ " req/s").
  { destruct (outcome getStatistics w) as [stats| |]; [|done|done].
    destruct (mounted_at w after_statistics); [|done].
    destruct (formatThroughputFromStats stats) as [text|] eqn:Hfmt; [|done].
    by apply formatThroughputFromStats_unit in Hfmt. }
  destruct (mounted_at w after_model_info); [|done].
  destruct (outcome getModelInfo w) as [info| |]; [|done|done].
  destruct (ToString (display_name info)); [|done].
  destruct (as_number _); [by eexists | done].
Qed.

(** Whatever the back end answers, and however often the page polls, the
    throughput panel shows a value followed by the unit. *)
Theorem throughput_always_with_unit (ws : list world) :
  exists value, throughput_label (poll ws) = value +:+ " req/s".
Proof.
  unfold poll, render. simpl.
  assert (H : forall v, (exists value, throughput v = value +:+ " req/s") ->
              exists value, throughput (run_loads ws v) = value +:+ " req/s").
  { induction ws as [|w ws IH]; intros v Hv; [done|].
    change (run_loads (w :: ws) v) with (run_loads ws (view (run_load w v))).
    by apply IH, throughput_unit_after_load. }
  apply H. by exists "--".
Qed.

(** A truthy name that is not a string: an empty array is shown as the
    empty text. *)
Example load_with_empty_array_name :
  let w := {| fetch_result :=
                serve (respond 200 health_ok)
                      (respond 200 (VObject {[ "model_name" := VArray [] ]}))
                      (respond 200 statistics_90);
              unmounted_from := None |} in
  view (run_load w initial) =
    {| apiStatus := up; modelName := ""; throughput := "1.50 req/s" |}.
Proof. vm_compute. reflexivity. Qed.

End DashboardPage.

(** ** The scoring core *)

Section ScoringCore.
Import Core.



(** An anomalous sub-score is not clamped. *)
Example fuse_anomalies :
  map (fun s => fuse default_fuser s (Exactly (1 # 2)))
      [NaN; Exactly (- (1 # 10)); Exactly (11 # 10)] =
    [inl ScoringAnomalyError; inl ScoringAnomalyError; inl ScoringAnomalyError].
Proof. reflexivity. Qed.

(** The example in binary64 arithmetic: the same sum of products, rounded
    at every step, is the number next above 0.58, less than 2^-52 away
    from it. *)
Example fuse_example_in_binary64 :
  let fused := Binary64.add (Binary64.mul (lit 6 (-1)) (lit 9 (-1)))
                            (Binary64.mul (lit 4 (-1)) (lit 1 (-1))) in
  fused = SFsucc Binary64.prec Binary64.emax (lit 58 (-2)) /\
  Binary64.nearer_than fused 58 100 52 = true /\
  Binary64.leb (lit 5 (-1)) fused = true.
Proof. vm_compute. repeat split. Qed.

(** C7: the post-filter is idempotent, and it leaves the fused score (and
    the sub-scores, the model version and the time of computation) as they
    were: only [is_alert], [filtered] and [reason] may change. *)
Theorem filter_idempotent (cfg : FilterConfig) (s : Session) (v : Verdict) :
  filter cfg s (filter cfg s v) = filter cfg s v /\
  fused_score (filter cfg s v) = fused_score v /\
  xgb_score (filter cfg s v) = xgb_score v /\
  lstm_score (filter cfg s v) = lstm_score v /\
  model_version (filter cfg s v) = model_version v /\
  computed_at (filter cfg s v) = computed_at v.
Proof.
  unfold filter.
  destruct (List.find (fun rule => rule.1 s) (rules cfg)) as [rule|]; by repeat split.
Qed.

(** C6: the statistics snapshot never divides by zero: it is computed for
    every store; with no prediction stored, [alert_rate] is 0 and not NaN;
    otherwise [alert_rate] is [alerts / total_requests]; 10 predictions with
    3 alerts give 0.3. *)
Theorem snapshot_never_divides_by_zero (store : list PredictionRecord) (process_start now : Z) :
  let counts := aggregate store now in
  exists snap,
    snapshot store process_start now = Some snap /\
    (store = [] -> alert_rate snap = lit 0 0 /\ Binary64.is_nan (alert_rate snap) = false) /\
    (store <> [] -> divide (alerts counts) (total counts) = Some (alert_rate snap)) /\
    (total counts = 10 -> alerts counts = 3 -> alert_rate snap = lit 3 (-1)).
Proof.
  cbn zeta. unfold snapshot.
  destruct (total (aggregate store now) =? 0) eqn:Hzero.
  - eexists. split; [reflexivity|]. simpl alert_rate.
    apply Z.eqb_eq in Hzero. split; [done|]. split.
    + intros Hne. destruct store; [done|]. simpl in Hzero. lia.
    + intros H10. rewrite H10 in Hzero. discriminate.
  - unfold divide. rewrite Hzero. eexists. split; [reflexivity|]. simpl alert_rate.
    split; [|split].
    + intros ->. discriminate.
    + reflexivity.
    + intros H10 H3. simpl in H10, H3. rewrite H10, H3. vm_compute. reflexivity.
Qed.

Section Limiter.
Variable p : WindowPolicy.
Variable q : nat.
Variable win : Z.
Variable client_id : string.
Variable t0 : Z.

Let cfg : LimiterConfig := {| quota := q; window := win; policy := p |}.

Lemma filter_all_kept (f : Z -> bool) ts :
  Forall (fun t => f t = true) ts -> List.filter f ts = ts.
Proof.
  induction 1 as [|t ts Ht _ IH]; simpl; [reflexivity|]. by rewrite Ht, IH.
Qed.

Lemma filter_drops (f : Z -> bool) t ts :
  In t ts -> f t = false -> (length (List.filter f ts) < length ts)%nat.
Proof.
  induction ts as [|a ts IH]; simpl; [done|].
  pose proof (List.filter_length_le f ts) as Hle.
  intros [->|Hin] Hf.
  - rewrite Hf. lia.
  - specialize (IH Hin Hf). destruct (f a); simpl; lia.
Qed.

Lemma filter_none_kept (f : Z -> bool) ts :
  Forall (fun t => f t = false) ts -> List.filter f ts = [].
Proof.
  induction 1 as [|t ts Ht _ IH]; simpl; [reflexivity|]. by rewrite Ht.
Qed.

Lemma admit_opens_window st now :
  (0 < q)%nat ->
  quiet cfg now (st !! client_id) ->
  exists st', admit_request cfg now client_id st = (true, st') /\
              tracks p now 1 (st' !! client_id).
Proof.
  intros q_positive Hquiet. unfold admit_request, quiet in *. simpl in *.
  destruct p; destruct (st !! client_id) as [[started count|ts]|] eqn:Hst; simpl.
  - rewrite (proj2 (Z.ltb_ge _ _)) by lia.
    rewrite bool_decide_eq_true_2 by done.
    eexists; split; [reflexivity|]. by rewrite lookup_insert_eq.
  - rewrite bool_decide_eq_true_2 by done.
    eexists; split; [reflexivity|]. by rewrite lookup_insert_eq.
  - rewrite bool_decide_eq_true_2 by done.
    eexists; split; [reflexivity|]. by rewrite lookup_insert_eq.
  - rewrite bool_decide_eq_true_2 by done.
    eexists; split; [reflexivity|]. rewrite lookup_insert_eq. simpl.
    repeat split; [by constructor | by left].
  - rewrite filter_none_kept.
    2: { eapply Forall_impl; [exact Hquiet|]. intros t Ht. simpl in Ht.
         apply Z.ltb_ge. lia. }
    rewrite bool_decide_eq_true_2 by done.
    eexists; split; [reflexivity|]. rewrite lookup_insert_eq. simpl.
    repeat split; [by constructor | by left].
  - rewrite bool_decide_eq_true_2 by done.
    eexists; split; [reflexivity|]. rewrite lookup_insert_eq. simpl.
    repeat split; [by constructor | by left].
Qed.

Lemma admit_within_window st now k :
  tracks p t0 k (st !! client_id) ->
  t0 <= now < t0 + win ->
  exists st',
    admit_request cfg now client_id st = (bool_decide (k < q)%nat, st') /\
    tracks p t0 (if bool_decide (k < q)%nat then S k else k) (st' !! client_id).
Proof.
  intros Htracks Hnow. unfold admit_request, tracks in *. simpl.
  destruct p; destruct (st !! client_id) as [[started count|ts]|] eqn:Hst; try done.
  - destruct Htracks as [-> ->].
    rewrite (proj2 (Z.ltb_lt _ _)) by lia.
    case_bool_decide; (eexists; split; [reflexivity|]).
    + by rewrite lookup_insert_eq.
    + by rewrite Hst.
  - destruct Htracks as (Hlen & Hall & Hin).
    rewrite filter_all_kept.
    2: { eapply Forall_impl; [exact Hall|]. intros t Ht. simpl in Ht. apply Z.ltb_lt. lia. }
    rewrite Hlen.
    case_bool_decide; (eexists; split; [reflexivity|]); rewrite lookup_insert_eq; simpl.
    + repeat split; [by rewrite Hlen | constructor; [lia | done] | by right].
    + done.
Qed.

Lemma admit_after_window st now k :
  (0 < q)%nat ->
  tracks p t0 k (st !! client_id) ->
  (k <= q)%nat ->
  t0 + win <= now ->
  (admit_request cfg now client_id st).1 = true.
Proof.
  intros q_positive Htracks Hk Hnow. unfold admit_request, tracks in *. simpl.
  destruct p; destruct (st !! client_id) as [[started count|ts]|] eqn:Hst; try done.
  - destruct Htracks as [-> ->].
    rewrite (proj2 (Z.ltb_ge _ _)) by lia.
    by rewrite bool_decide_eq_true_2.
  - destruct Htracks as (Hlen & Hall & Hin).
    rewrite bool_decide_eq_true_2; [done|].
    pose proof (filter_drops (fun t => now - win <? t) t0 ts Hin) as Hdrop.
    rewrite Hlen in Hdrop. simpl in Hdrop.
    assert (Hout : (now - win <? t0) = false) by (apply Z.ltb_ge; lia).
    specialize (Hdrop Hout). lia.
Qed.

Lemma request_all_within_window ts : forall st k,
  tracks p t0 k (st !! client_id) ->
  (k + length ts <= q)%nat ->
  Forall (fun t => t0 <= t < t0 + win) ts ->
  exists st',
    request_all cfg ts client_id st = (repeat (inr tt) (length ts), st') /\
    tracks p t0 (k + length ts) (st' !! client_id).
Proof.
  induction ts as [|now ts IH]; intros st k Htracks Hk Hall; simpl.
  - exists st. split; [reflexivity|]. by rewrite Nat.add_0_r.
  - apply Forall_cons in Hall as [Hnow Hall]. simpl in Hk.
    destruct (admit_within_window st now k Htracks Hnow) as (st1 & Hadmit & Htracks1).
    rewrite bool_decide_eq_true_2 in Hadmit, Htracks1 by lia.
    unfold request_admission. rewrite Hadmit.
    destruct (IH st1 (S k) Htracks1 ltac:(lia) Hall) as (st2 & Hrest & Htracks2).
    unfold request_admission in Hrest. rewrite Hrest.
    exists st2. split; [reflexivity|]. by rewrite Nat.add_succ_r.
Qed.

End Limiter.

(** C8: with the default quota of 100 admissions per window of 60 seconds
    and either window policy, for every client without an admission in the
    last 60 seconds: the first 100 requests within 60 seconds are admitted,
    the 101st request within these 60 seconds is denied with
    RateLimitExceededError, and a request after the window has elapsed is
    admitted again. *)
Theorem default_quota_per_window (p : WindowPolicy) (client_id : string)
    (st : gmap string ClientWindow) (t0 : Z) (rest : list Z) (t101 later : Z) :
  quiet (default_limiter p) t0 (st !! client_id) ->
  length rest = 99%nat ->
  Forall (fun t => t0 <= t < t0 + 60) (rest ++ [t101]) ->
  t0 + 60 <= later ->
  let cfg := default_limiter p in
  let first_100 := request_all cfg (t0 :: rest) client_id st in
  let the_101st := request_admission cfg t101 client_id first_100.2 in
  first_100.1 = repeat (inr tt) 100 /\
  the_101st.1 = inl RateLimitExceededError /\
  (request_admission cfg later client_id the_101st.2).1 = inr tt.
Proof.
  intros Hfresh Hlen Hin Hlater. cbn zeta.
  apply Forall_app in Hin as [Hrest H101]. apply Forall_inv in H101. simpl in H101.
  change (default_limiter p) with {| quota := 100; window := 60; policy := p |}.
  destruct (admit_opens_window p 100 60 client_id st t0 ltac:(lia) Hfresh)
    as (st1 & Hfirst & Htracks1).
  destruct (request_all_within_window p 100 60 client_id t0 rest st1 1 Htracks1
              ltac:(lia) Hrest) as (st2 & Hall & Htracks2).
  rewrite Hlen in Hall, Htracks2.
  destruct (admit_within_window p 100 60 client_id t0 st2 t101 100 Htracks2 H101)
    as (st3 & Hdenied & Htracks3).
  rewrite bool_decide_eq_false_2 in Hdenied, Htracks3 by lia.
  pose proof (admit_after_window p 100 60 client_id t0 st3 later 100 ltac:(lia) Htracks3
                ltac:(lia) Hlater) as Hagain.
  assert (Hrun : request_all {| quota := 100; window := 60; policy := p |}
                   (t0 :: rest) client_id st = (repeat (inr tt) 100, st2)).
  { cbn [request_all]. unfold request_admission. by rewrite Hfirst, Hall. }
  assert (H101st : request_admission {| quota := 100; window := 60; policy := p |}
                     t101 client_id st2 = (inl RateLimitExceededError, st3)).
  { unfold request_admission. by rewrite Hdenied. }
  rewrite Hrun. cbn [fst snd]. rewrite H101st. cbn [fst snd].
  split; [reflexivity|]. split; [reflexivity|].
  unfold request_admission.
  destruct (admit_request _ later client_id st3) as [allowed st4].
  simpl in Hagain. by rewrite Hagain.
Qed.

(** C8 at a client that sends 100 requests at second 0, one at second 59
    and one at second 60. *)
Lemma default_quota_per_window_witness :
  let first_100 :=
    request_all (default_limiter SlidingWindow) (repeat 0 100) "10.0.0.7" ∅ in
  let the_101st :=
    request_admission (default_limiter SlidingWindow) 59 "10.0.0.7" first_100.2 in
  first_100.1 = repeat (inr tt) 100 /\
  the_101st.1 = inl RateLimitExceededError /\
  (request_admission (default_limiter SlidingWindow) 60 "10.0.0.7" the_101st.2).1 = inr tt.
Proof.
  apply (default_quota_per_window SlidingWindow "10.0.0.7" ∅ 0 (repeat 0 99) 59 60).
  - exact I.
  - reflexivity.
  - apply Forall_app. split; [apply Forall_forall; intros t Ht | constructor; [lia | constructor]].
    apply list_elem_of_In, repeat_spec in Ht. lia.
  - lia.
Defined.

(** The two end-to-end scenarios of the post-filter. *)
Lemma filter_single_event (cfg : FilterConfig) (e : Event) (v : Verdict) :
  is_alert (filter cfg [e] v) = false /\
  filtered (filter cfg [e] v) = true /\
  reason (filter cfg [e] v) = Some "single_action".
Proof. by repeat split. Qed.

Lemma filter_passes (cfg : FilterConfig) (s : Session) (v : Verdict) :
  length s <> 1%nat ->
  min_duration cfg <= duration s ->
  existsb (fun p => is_prefix p (map action s)) (benign_patterns cfg) = false ->
  filter cfg s v = v.
Proof.
  intros Hlen Hdur Hbenign. unfold filter, rules. simpl.
  rewrite bool_decide_eq_false_2 by done.
  rewrite (proj2 (Z.ltb_ge _ _)) by lia.
  by rewrite Hbenign.
Qed.

(** The windows of the clients are independent. *)
Lemma admit_request_other_client cfg now c c' (st : gmap string ClientWindow) :
  c <> c' ->
  (admit_request cfg now c' st).2 !! c = st !! c.
Proof.
  intros Hne. unfold admit_request.
  destruct (policy cfg).
  - destruct (st !! c') as [[started count|ts]|]; simpl;
      repeat case_bool_decide; repeat case_match; simpl;
      rewrite ?lookup_insert_ne by done; done.
  - case_bool_decide; simpl; by rewrite lookup_insert_ne.
Qed.

Example limiter_fixed_window :
  (request_all (default_limiter FixedWindow) (repeat 0 100 ++ [59; 60]) "10.0.0.7" ∅).1 =
    repeat (inr tt) 100 ++ [inl RateLimitExceededError; inr tt].
Proof. vm_compute. reflexivity. Qed.

End ScoringCore.

(** ** [scripts/run_everything.ps1] *)

Section StartScript.
Import Script.

(** *** The loop of [Test-Http200] *)

(** Within enough steps the loop comes to an end, with requests and
    sleeps as its only effects: with [true] after an answer 200 to a
    request that it started before the deadline, with [false] once the
    deadline has passed. *)
Import Script.

Lemma Test_Http200_until_settles m url deadline steps : forall s,
  answers_take_time m ->
  Z.max 0 (deadline - now s) < Z.of_nat steps ->
  exists b s' probes,
    Test_Http200_until steps m url deadline s = Some (Next b, s') /\
    effects s' = probes ++ effects s /\
    Forall (probe_of url) probes /\
    now s <= now s' /\
    (b = true ->
       exists t took,
         now s <= t < deadline /\
         Invoke_WebRequest m url t = (Answered 200, took) /\
         now s' = t + Z.of_N took) /\
    (b = false -> deadline <= now s').
Proof.
  intros s Hprogress. revert s.
  induction steps as [|steps IH]; intros s Hsteps; [lia|].
  simpl. destruct (now s <? deadline) eqn:Hlt.
  2: { apply Z.ltb_ge in Hlt. exists false, s, []. repeat split; try done; lia. }
  apply Z.ltb_lt in Hlt.
  destruct (Invoke_WebRequest m url (now s)) as [[code|] took] eqn:Hreq.
  - destruct (code =? 200) eqn:Hcode.
    + apply Z.eqb_eq in Hcode as ->.
      eexists true, _, [Requested url]. split; [reflexivity|]. simpl.
      split; [done|]. split; [repeat constructor|]. split; [lia|].
      split; [|done]. intros _. exists (now s), took. split; [lia|]. by split.
    + apply Z.eqb_neq in Hcode.
      pose proof (Hprogress url (now s) code took Hreq Hcode) as Htook.
      destruct (IH {| now := now s + Z.of_N took; effects := Requested url :: effects s |})
        as (b & s' & probes & Heq & Heff & Hprobes & Hnow & Htrue & Hfalse);
        [simpl; lia|].
      simpl in *. exists b, s', (probes ++ [Requested url]).
      split; [done|]. split; [by rewrite <- app_assoc|].
      split; [apply Forall_app; split; [done | repeat constructor]|].
      split; [lia|]. split; [|done].
      intros Hb. destruct (Htrue Hb) as (t & d & Ht & Hr & Hs).
      exists t, d. split; [lia | done].
  - destruct (IH {| now := now s + Z.of_N took + 500;
                    effects := Start_Sleep 500 :: Requested url :: effects s |})
      as (b & s' & probes & Heq & Heff & Hprobes & Hnow & Htrue & Hfalse);
      [simpl; lia|].
    simpl in *. exists b, s', (probes ++ [Start_Sleep 500; Requested url]).
    split; [done|]. split; [by rewrite <- app_assoc|].
    split; [apply Forall_app; split; [done | repeat constructor; by right]|].
    split; [lia|]. split; [|done].
    intros Hb. destruct (Htrue Hb) as (t & d & Ht & Hr & Hs).
    exists t, d. split; [lia | done].
Qed.

Import Script.


(** [Test-Http200] comes to an end when answers other than 200 take time:
    steps for the milliseconds of the timeout suffice.  It makes requests to
    its URL and sleeps for half a second, and nothing else.  It returns
    [$true] only after an answer 200 to a request that it started before the
    deadline, and [$false] only when the deadline has passed. *)
Theorem Test_Http200_settles (steps : nat) (m : machine) (url : string)
    (timeoutSec : Z) (s : run_state) :
  answers_take_time m ->
  Z.max 0 (timeoutSec * 1000) < Z.of_nat steps ->
  exists b s' probes,
    Test_Http200 steps m url timeoutSec s = Some (Next b, s') /\
    effects s' = probes ++ effects s /\
    Forall (probe_of url) probes /\
    now s <= now s' /\
    (b = true ->
       exists t took,
         now s <= t < now s + timeoutSec * 1000 /\
         Invoke_WebRequest m url t = (Answered 200, took) /\
         now s' = t + Z.of_N took) /\
    (b = false -> now s + timeoutSec * 1000 <= now s').
Proof.
  intros Hprogress Hsteps. unfold Test_Http200.
  apply Test_Http200_until_settles; [done|].
  replace (now s + timeoutSec * 1000 - now s) with (timeoutSec * 1000) by lia. done.
Qed.

Lemma answers_take_time_up t0 : answers_take_time (machine_up_from t0).
Proof.
  intros url t code took. simpl. destruct (t <? t0); intros [= <- <-]; done.
Qed.

(** The API answers from the third second on. *)
Lemma Test_Http200_settles_witness :
  exists b s' probes,
    Test_Http200 (Z.to_nat 40001) (machine_up_from 3000) "http://127.0.0.1:8000/health" 40
                 started = Some (Next b, s') /\
    effects s' = probes ++ effects started /\
    Forall (probe_of "http://127.0.0.1:8000/health") probes /\
    now started <= now s' /\
    (b = true ->
       exists t took,
         now started <= t < now started + 40 * 1000 /\
         Invoke_WebRequest (machine_up_from 3000) "http://127.0.0.1:8000/health" t =
           (Answered 200, took) /\
         now s' = t + Z.of_N took) /\
    (b = false -> now started + 40 * 1000 <= now s').
Proof.
  apply (Test_Http200_settles (Z.to_nat 40001) (machine_up_from 3000)
           "http://127.0.0.1:8000/health" 40 started).
  - apply answers_take_time_up.
  - rewrite Z2Nat.id; lia.
Defined.

Example Test_Http200_example :
  Test_Http200 (Z.to_nat 40001) (machine_up_from 3000) "http://127.0.0.1:8000/health" 40
               started =
    Some (Next true,
          {| now := 3020;
             effects :=
               [Requested "http://127.0.0.1:8000/health";
                Start_Sleep 500; Requested "http://127.0.0.1:8000/health";
                Start_Sleep 500; Requested "http://127.0.0.1:8000/health"] |}).
Proof. vm_compute. reflexivity. Qed.

Lemma concat_repeat_snoc {A} (x : list A) k :
  concat (repeat x k) ++ x = concat (repeat x (S k)).
Proof.
  induction k as [|k IH]; simpl; [by rewrite app_nil_r|].
  rewrite <- app_assoc. by rewrite IH.
Qed.

(** A server that does not answer: every request is followed by a sleep
    of half a second. *)
Lemma Test_Http200_until_dead m url deadline (limit : Z) steps : forall s,
  (forall t, exists took,
     Invoke_WebRequest m url t = (Failed, took) /\ Z.of_N took <= limit) ->
  Z.max 0 (deadline - now s) < Z.of_nat steps ->
  exists s' k,
    Test_Http200_until steps m url deadline s = Some (Next false, s') /\
    effects s' = concat (repeat [Start_Sleep 500; Requested url] k) ++ effects s /\
    500 * Z.of_nat k <= Z.max 0 (deadline - now s + 499) /\
    (now s < deadline -> (0 < k)%nat) /\
    Z.max (now s) deadline <= now s' /\
    now s' <= Z.max (now s) (deadline - 1 + limit + 500).
Proof.
  intros s Hdead. revert s.
  induction steps as [|steps IH]; intros s Hsteps; [lia|].
  simpl. destruct (now s <? deadline) eqn:Hlt.
  2: { apply Z.ltb_ge in Hlt. exists s, O. simpl. repeat split; try done; lia. }
  apply Z.ltb_lt in Hlt.
  destruct (Hdead (now s)) as (took & -> & Hlimit).
  destruct (IH {| now := now s + Z.of_N took + 500;
                  effects := Start_Sleep 500 :: Requested url :: effects s |})
    as (s' & k & Heq & Heff & Hk & _ & Hlow & Hhigh); [simpl; lia|].
  simpl in *. exists s', (S k). split; [done|].
  split.
  { rewrite Heff, <- concat_repeat_snoc, <- app_assoc. reflexivity. }
  repeat split; lia.
Qed.

(** A server that does not answer is asked at most twice a second: when
    every request fails, [Test-Http200] with a positive timeout returns
    [$false] after at least one and at most [2 * timeoutSec] requests, each
    followed by a sleep of half a second, and it returns not before the
    deadline and less than the time of a request and a sleep after it. *)
Theorem Test_Http200_dead_server (steps : nat) (m : machine) (url : string)
    (timeoutSec limit : Z) (s : run_state) :
  (forall t, exists took,
     Invoke_WebRequest m url t = (Failed, took) /\ Z.of_N took <= limit) ->
  0 < timeoutSec ->
  timeoutSec * 1000 < Z.of_nat steps ->
  exists s' k,
    Test_Http200 steps m url timeoutSec s = Some (Next false, s') /\
    effects s' = concat (repeat [Start_Sleep 500; Requested url] k) ++ effects s /\
    (0 < k)%nat /\ Z.of_nat k <= 2 * timeoutSec /\
    now s + timeoutSec * 1000 <= now s' < now s + timeoutSec * 1000 + limit + 500.
Proof.
  intros Hdead Hpos Hsteps. unfold Test_Http200.
  destruct (Test_Http200_until_dead m url (now s + timeoutSec * 1000) limit steps s Hdead)
    as (s' & k & Heq & Heff & Hk & Hone & Hlow & Hhigh); [lia|].
  exists s', k. split; [done|]. split; [done|].
  destruct (Hdead 0) as (took & _ & Hlimit).
  repeat split; lia.
Qed.

(** Five seconds for port 5174 on a machine where nothing answers. *)
Lemma Test_Http200_dead_server_witness :
  exists s' k,
    Test_Http200 (Z.to_nat 5001) dead_machine "http://localhost:5174" 5 started =
      Some (Next false, s') /\
    effects s' =
      concat (repeat [Start_Sleep 500; Requested "http://localhost:5174"] k) ++ [] /\
    (0 < k)%nat /\ Z.of_nat k <= 2 * 5 /\
    0 + 5 * 1000 <= now s' < 0 + 5 * 1000 + 2000 + 500.
Proof.
  apply (Test_Http200_dead_server (Z.to_nat 5001) dead_machine "http://localhost:5174"
           5 2000 started).
  - intros t. exists 2000%N. split; [reflexivity | lia].
  - lia.
  - rewrite Z2Nat.id; lia.
Defined.

Lemma repeat_snoc_app {A} (x : A) k es : repeat x k ++ x :: es = repeat x (S k) ++ es.
Proof.
  change (x :: es) with ([x] ++ es). rewrite app_assoc.
  by rewrite <- repeat_cons.
Qed.

(** A server that answers with another status than 200. *)
Lemma Test_Http200_until_wrong_status m url deadline (took : N) steps : forall s,
  (forall t, exists code,
     Invoke_WebRequest m url t = (Answered code, took) /\ code <> 200) ->
  (0 < took)%N ->
  Z.max 0 (deadline - now s) < Z.of_nat steps ->
  exists s' k,
    Test_Http200_until steps m url deadline s = Some (Next false, s') /\
    effects s' = repeat (Requested url) k ++ effects s /\
    now s' = now s + Z.of_nat k * Z.of_N took /\
    (Z.of_nat k - 1) * Z.of_N took < Z.max 0 (deadline - now s) <= Z.of_nat k * Z.of_N took.
Proof.
  intros s Hwrong Htook. revert s.
  induction steps as [|steps IH]; intros s Hsteps; [lia|].
  simpl. destruct (now s <? deadline) eqn:Hlt.
  2: { apply Z.ltb_ge in Hlt. exists s, O. simpl. repeat split; lia. }
  apply Z.ltb_lt in Hlt.
  destruct (Hwrong (now s)) as (code & -> & Hcode).
  apply Z.eqb_neq in Hcode. rewrite Hcode.
  destruct (IH {| now := now s + Z.of_N took; effects := Requested url :: effects s |})
    as (s' & k & Heq & Heff & Hnow & Hk); [simpl; lia|].
  simpl in *. exists s', (S k). split; [done|].
  split; [by rewrite Heff, repeat_snoc_app|].
  rewrite Nat2Z.inj_succ.
  assert (Hpos : 0 < Z.of_N took) by lia.
  assert (Hk0 : 0 <= Z.of_nat k) by lia.
  split; [lia|].
  rewrite (Z.max_r 0 (deadline - now s)) by lia.
  destruct (Z.max_spec 0 (deadline - (now s + Z.of_N took))) as [[Hc Hmax]|[Hc Hmax]];
    rewrite Hmax in Hk.
  - split; nia.
  - assert (Z.of_nat k = 0) by nia. split; nia.
Qed.

(** After an answer other than 200 the next request follows at once: on
    a server that answers every request with another status after [took]
    milliseconds, [Test-Http200] returns [$false] after as many requests as
    fit into the timeout back to back, without a sleep between them. *)
Theorem Test_Http200_wrong_status (steps : nat) (m : machine) (url : string)
    (timeoutSec : Z) (took : N) (s : run_state) :
  (forall t, exists code,
     Invoke_WebRequest m url t = (Answered code, took) /\ code <> 200) ->
  (0 < took)%N ->
  0 < timeoutSec ->
  timeoutSec * 1000 < Z.of_nat steps ->
  exists s' k,
    Test_Http200 steps m url timeoutSec s = Some (Next false, s') /\
    effects s' = repeat (Requested url) k ++ effects s /\
    now s' = now s + Z.of_nat k * Z.of_N took /\
    (Z.of_nat k - 1) * Z.of_N took < timeoutSec * 1000 <= Z.of_nat k * Z.of_N took.
Proof.
  intros Hwrong Htook Hpos Hsteps. unfold Test_Http200.
  destruct (Test_Http200_until_wrong_status m url (now s + timeoutSec * 1000) took steps s
              Hwrong Htook) as (s' & k & Heq & Heff & Hnow & Hk); [lia|].
  exists s', k. split; [done|]. split; [done|]. split; [done|]. lia.
Qed.

(** Fifty requests in five seconds to a server that answers 204 after a
    tenth of a second. *)
Lemma Test_Http200_wrong_status_witness :
  exists s',
    Test_Http200 (Z.to_nat 5001) machine_no_content "http://localhost:5175" 5 started =
      Some (Next false, s') /\
    effects s' = repeat (Requested "http://localhost:5175") 50 /\
    now s' = 5000.
Proof.
  destruct (Test_Http200_wrong_status (Z.to_nat 5001) machine_no_content
              "http://localhost:5175" 5 100%N started)
    as (s' & k & Heq & Heff & Hnow & Hk).
  - intros t. exists 204. by split.
  - lia.
  - lia.
  - rewrite Z2Nat.id; lia.
  - assert (k = 50%nat) as -> by lia.
    exists s'. split; [exact Heq|]. split.
    + rewrite Heff. apply app_nil_r.
    + rewrite Hnow. reflexivity.
Defined.


(** *** The script

    Its blocks are followed one by one. *)






Import Script.








(** The blocks of the script *)





Import Script.








(** The React server is found on port 5174 after 25 seconds without an
    answer on port 5173; the browser is opened on port 5173 all the same. *)
Example run_everything_vite_on_5174 :
  let p := {| ApiHost := "127.0.0.1"; ApiPort := 8000; StreamlitPort := 8501;
              VitePort := 5173; NoStreamlit := true; NoReact := false;
              RunDemo := false; OpenBrowser := true |} in
  match run_everything (Z.to_nat 40001) machine_vite_on_5174 p started with
  | Some (r, final) =>
      r = Next tt /\
      written (effects final) =
        ["[INFO] Stopping any previous node/npm/python (dev servers)";
         "[INFO] Using Python at: C:\repo\.venv\Scripts\python.exe";
         "[INFO] Starting API on http://127.0.0.1:8000";
         "[OK]  API is healthy";
         "[INFO] Starting React (Vite) on http://localhost:5173";
         "[OK]  React dev server is up";
         "[OK]  All tasks dispatched. Use Get-Job to inspect background jobs."] /\
      opened (effects final) = ["http://localhost:5173"; "http://127.0.0.1:8000/docs"] /\
      length (requests (effects final)) = 19%nat /\
      now final = 25540
  | None => False
  end.
Proof. vm_compute. repeat split. Qed.

(** *** The time the script waits *)

Lemma takes_ret {A} (a : A) : takes (ret a) 0.
Proof. intros s. exists (Next a), s. split; [done | lia]. Qed.

Lemma takes_exit {A} code : takes (@exit A code) 0.
Proof. intros s. exists (Exit code), s. split; [done | lia]. Qed.

Lemma takes_perform e : takes (perform e) 0.
Proof. intros s. eexists _, _. split; [reflexivity | simpl; lia]. Qed.

Lemma takes_some_time {A} (c : PS A) a : takes c a -> 0 <= a.
Proof. intros Hc. destruct (Hc started) as (r & s' & _ & Hs'). lia. Qed.

Lemma takes_bind {A B} `{Inhabited A} (c : PS A) (k : A -> PS B) a b :
  takes c a -> (forall x, takes (k x) b) -> takes (bind c k) (a + b).
Proof.
  intros Hc Hk s. unfold bind.
  pose proof (takes_some_time _ _ (Hk inhabitant)) as Hb.
  destruct (Hc s) as ([x|code] & s1 & -> & Hs1).
  - destruct (Hk x s1) as (r & s2 & -> & Hs2). exists r, s2. split; [done | lia].
  - exists (Exit code), s1. split; [done | lia].
Qed.

Lemma takes_after {A B} `{Inhabited A} (c : PS A) (k : A -> PS B) b :
  takes c 0 -> (forall x, takes (k x) b) -> takes (bind c k) b.
Proof. intros Hc Hk. apply (takes_bind c k 0 b Hc) in Hk. by rewrite Z.add_0_l in Hk. Qed.

Lemma takes_longer {A} (c : PS A) a b : takes c a -> a <= b -> takes c b.
Proof.
  intros Hc Hab s. destruct (Hc s) as (r & s' & Heq & Hs').
  exists r, s'. split; [done | lia].
Qed.

Lemma takes_if {A} (x : bool) (c1 c2 : PS A) a :
  takes c1 a -> takes c2 a -> takes (if x then c1 else c2) a.
Proof. by destruct x. Qed.

Lemma Test_Http200_until_in_time m url deadline limit steps : forall s,
  answers_take_time m ->
  requests_within m limit ->
  Z.max 0 (deadline - now s) < Z.of_nat steps ->
  exists b s',
    Test_Http200_until steps m url deadline s = Some (Next b, s') /\
    now s <= now s' <= Z.max (now s) (deadline + limit + 499).
Proof.
  intros s Hprogress Hwithin. revert s.
  induction steps as [|steps IH]; intros s Hsteps; [lia|].
  simpl. destruct (now s <? deadline) eqn:Hlt.
  2: { exists false, s. split; [done | lia]. }
  apply Z.ltb_lt in Hlt.
  pose proof (Hwithin url (now s)) as Hlimit.
  destruct (Invoke_WebRequest m url (now s)) as [[code|] took] eqn:Hreq; simpl in Hlimit.
  - destruct (code =? 200) eqn:Hcode.
    + eexists true, _. split; [reflexivity|]. simpl. lia.
    + apply Z.eqb_neq in Hcode.
      pose proof (Hprogress url (now s) code took Hreq Hcode) as Htook.
      destruct (IH {| now := now s + Z.of_N took; effects := Requested url :: effects s |})
        as (b & s' & Heq & Hnow); [simpl; lia|].
      simpl in *. exists b, s'. split; [done | lia].
  - destruct (IH {| now := now s + Z.of_N took + 500;
                    effects := Start_Sleep 500 :: Requested url :: effects s |})
      as (b & s' & Heq & Hnow); [simpl; lia|].
    simpl in *. exists b, s'. split; [done | lia].
Qed.

Lemma takes_Test_Http200 steps m url timeoutSec limit :
  answers_take_time m ->
  requests_within m limit ->
  0 <= timeoutSec ->
  timeoutSec * 1000 < Z.of_nat steps ->
  takes (Test_Http200 steps m url timeoutSec) (timeoutSec * 1000 + limit + 499).
Proof.
  intros Hprogress Hwithin Hpos Hsteps s. unfold Test_Http200.
  destruct (Test_Http200_until_in_time m url (now s + timeoutSec * 1000) limit steps s
              Hprogress Hwithin) as (b & s' & Heq & Hnow); [lia|].
  exists (Next b), s'. split; [done|].
  pose proof (Hwithin url 0). lia.
Qed.

(** Statements that take no time, one after the other. *)
Ltac at_once :=
  repeat first
    [ apply takes_perform | apply takes_ret | apply takes_exit
    | apply takes_if
    | apply takes_after; [|intros ?] ].

(** The script waits for the servers for a bounded time: when no request
    takes longer than [limit] milliseconds, the requests and sleeps of a run
    take at most 105 seconds (40 for the API, 30 for Streamlit, 25 + 5 + 5
    for the React server) and five times a request and a sleep. *)
Theorem run_everything_in_time (steps : nat) (m : machine) (p : Params) (limit : Z) :
  answers_take_time m ->
  requests_within m limit ->
  40000 < Z.of_nat steps ->
  exists r final,
    run_everything steps m p started = Some (r, final) /\
    now final <= 105000 + 5 * (limit + 499).
Proof.
  intros Hprogress Hwithin Hsteps.
  assert (Hlimit : 0 <= limit) by (pose proof (Hwithin "" 0); lia).
  assert (Htest : forall url T, 0 <= T <= 40 ->
            takes (Test_Http200 steps m url T) (T * 1000 + limit + 499)).
  { intros url T HT. apply takes_Test_Http200; try done; lia. }
  assert (Hstreamlit : takes (start_streamlit steps m p) (30000 + limit + 499)).
  { unfold start_streamlit, Write_Info, Write_Warn, Write_Ok.
    apply takes_if; [|apply (takes_longer _ 0); [at_once | lia]].
    apply takes_after; [at_once | intros _].
    apply takes_after; [at_once | intros _].
    apply (takes_longer _ ((30 * 1000 + limit + 499) + 0)); [|lia].
    apply takes_bind; [apply Htest; lia | intros reachable]. at_once. }
  assert (Hreact : takes (start_react steps m p) (35000 + 3 * (limit + 499))).
  { unfold start_react, or_, Write_Info, Write_Warn, Write_Ok.
    apply takes_if; [|apply (takes_longer _ 0); [at_once | lia]].
    apply takes_after; [at_once | intros _].
    apply takes_after; [at_once | intros _].
    apply (takes_longer _
             (((25 * 1000 + limit + 499) + (5 * 1000 + limit + 499))
              + (5 * 1000 + limit + 499) + 0)); [|lia].
    apply takes_bind; [|intros viteOk; at_once].
    apply takes_bind; [|intros found].
    - apply takes_bind; [apply Htest; lia | intros found].
      apply takes_if; [|apply Htest; lia]. apply (takes_longer _ 0); [at_once | lia].
    - apply takes_if; [|apply Htest; lia]. apply (takes_longer _ 0); [at_once | lia]. }
  assert (Hbrowser : takes (open_browser p) 0).
  { unfold open_browser. at_once. }
  assert (Hdemo : takes (run_demo m p) 0).
  { unfold run_demo, Write_Info. at_once. }
  assert (Hall : takes (run_everything steps m p) (105000 + 5 * (limit + 499))).
  { unfold run_everything, Write_Info, Write_Err, Write_Ok.
    do 3 (apply takes_after; [at_once | intros _]).
    apply takes_after; [at_once | intros _].
    do 2 (apply takes_after; [at_once | intros _]).
    apply (takes_longer _
             ((40 * 1000 + limit + 499) +
              (0 + (0 + ((30000 + limit + 499) +
                         ((35000 + 3 * (limit + 499)) + (0 + (0 + 0)))))))); [|lia].
    apply takes_bind; [apply Htest; lia | intros healthy].
    apply takes_bind; [at_once | intros _].
    apply takes_bind; [at_once | intros _].
    apply takes_bind; [apply Hstreamlit | intros _].
    apply takes_bind; [apply Hreact | intros _].
    apply takes_bind; [apply Hbrowser | intros _].
    apply takes_bind; [apply Hdemo | intros _].
    at_once. }
  destruct (Hall started) as (r & final & Hrun & Hnow).
  exists r, final. split; [done|]. simpl in Hnow. lia.
Qed.

Lemma requests_within_up t0 : requests_within (machine_up_from t0) 1000.
Proof. intros url t. simpl. destruct (t <? t0); simpl; lia. Qed.

(** Requests of at most one second. *)
Lemma run_everything_in_time_witness :
  exists r final,
    run_everything (Z.to_nat 40001) (machine_up_from 3000) default_params started =
      Some (r, final) /\
    now final <= 105000 + 5 * (1000 + 499).
Proof.
  apply (run_everything_in_time (Z.to_nat 40001) (machine_up_from 3000) default_params 1000).
  - intros url t code took. simpl. destruct (t <? 3000); intros [= <- <-]; done.
  - apply requests_within_up.
  - rewrite Z2Nat.id; lia.
Defined.


End StartScript.
